(** * Gumball-machine front-ends: the interaction controller

    A shallow embedding of the two browser front-ends of the repository,

      - full-stack/dapp-toolkit-gumball-machine/client/main.js   (module [Toolkit])
      - full-stack/wallet-sdk-gumball-machine/src/index.ts       (module [WalletSdk])

    Every button handler is an [async] function that reads module-level
    variables and input fields, builds a transaction manifest, hands it to the
    wallet, awaits gateway queries, assigns module-level variables and writes
    DOM text.  A handler is embedded as a computation in a small monad that
    threads the module-level variables and the DOM, may throw, and records
    every observable step in a chronological trace.  A run of a handler is
    taken on its own, from the click to its return or throw: what another
    handler does to the variables while this one awaits is not part of it. *)

From Stdlib Require Import Ascii String List Bool Arith Lia.
From stdpp Require Import base option gmap strings list pretty.
Import ListNotations.

(** ** JavaScript values *)

(** A variable or array slot holding a string, or [undefined]. *)
Abbreviation JsStr := (option string).

(** The double quote, the line feed and the backslash. *)
Definition dq : string := String "034"%char EmptyString.
Definition nl : string := String "010"%char EmptyString.
Definition backslash : ascii := "092"%char.

(** [`${v}`]: a template literal prints [undefined] as the word.  The same
    conversion applies when [undefined] is assigned to [innerText]. *)
Definition to_string (v : JsStr) : string := default "undefined" v.

(** ** The DOM: [value] of the input elements, [innerText] of the others *)

Record Dom := mkDom {
  values : gmap string string;
  texts  : gmap string string
}.

(** [document.getElementById(id).value]; a field nobody typed in is empty. *)
Definition getValue (id : string) (d : Dom) : string :=
  default EmptyString (values d !! id).

(** [document.getElementById(id).innerText = s] *)
Definition setInnerText (id s : string) (d : Dom) : Dom :=
  {| values := values d; texts := <[id := s]> (texts d) |}.

(** ** Data exchanged with the wallet and the gateway *)

(** neverthrow's [Result]: [isErr()] selects [Err]. *)
Inductive Result (A : Type) := Ok (value : A) | Err (error : string).
Arguments Ok {A} value.
Arguments Err {A} error.

(** An awaited promise of a gateway call. *)
Inductive Promise (A : Type) := Fulfilled (a : A) | Rejected (reason : string).
Arguments Fulfilled {A} a.
Arguments Rejected {A} reason.

Record TxResult := { transactionIntentHash : string }.
Record TransactionStatus := { status : string }.

(** The committed-details response: the ordered list
    [transaction.affected_global_entities], and what [JSON.stringify] prints
    for the whole response. *)
Record CommittedDetails := {
  affected_global_entities : list string;
  details_json : string
}.

(** The entity-state response: [details.state.fields], each field given by what
    [JSON.stringify] prints for its [value]. *)
Record EntityDetails := { fields : list string }.

Record Account := { label : string; address : string }.
Record WalletData := { accounts : list Account }.
Record RequestValue := { oneTimeAccounts : option (list Account) }.

(** ** Errors, outcomes and the trace *)

Inductive Error :=
| WalletError (error : string)     (* [throw result.error] *)
| GatewayError (reason : string)   (* a rejected gateway promise *)
| TypeError (what : string).       (* a property read on [undefined] *)

Inductive Outcome (A : Type) := Returned (a : A) | Thrown (e : Error).
Arguments Returned {A} a.
Arguments Thrown {A} e.

(** What [console.log] was given besides its label. *)
Inductive Logged :=
| LNothing
| LText (s : string)
| LTx (r : TxResult)
| LTxResult (r : Result TxResult)
| LStatus (s : TransactionStatus)
| LDetails (r : CommittedDetails)
| LEntity (e : EntityDetails)
| LWalletData (w : WalletData)
| LRequest (r : Result RequestValue).

(** The observable steps of a handler; [V] names the module-level variables. *)
Inductive Event (V : Type) :=
| Log (label : string) (x : Logged)
| ReadInput (id : string)
| WalletRequest
| SendTransaction (transactionManifest : string) (version : nat)
| GetStatus (intentHash : string)
| GetCommittedDetails (intentHash : string)
| GetEntityDetails (addr : JsStr)
| Assign (var : V) (v : JsStr)
| SetInnerText (id : string) (s : string).
Arguments Log {V} label x.
Arguments ReadInput {V} id.
Arguments WalletRequest {V}.
Arguments SendTransaction {V} transactionManifest version.
Arguments GetStatus {V} intentHash.
Arguments GetCommittedDetails {V} intentHash.
Arguments GetEntityDetails {V} addr.
Arguments Assign {V} var v.
Arguments SetInnerText {V} id s.

(** ** The handler monad *)

Section Machine.
Context {V S : Type}.

(** The module-level variables and the page. *)
Record Config := mkConfig { session : S; dom : Dom }.

Definition M (A : Type) : Type := Config -> Outcome A * Config * list (Event V).

Definition ret {A} (a : A) : M A := fun c => (Returned a, c, []).
Definition throw {A} (e : Error) : M A := fun c => (Thrown e, c, []).

Definition bind {A B} (m : M A) (k : A -> M B) : M B := fun c =>
  match m c with
  | (Returned a, c1, t1) =>
      match k a c1 with (r, c2, t2) => (r, c2, t1 ++ t2) end
  | (Thrown e, c1, t1) => (Thrown e, c1, t1)
  end.

Definition emit (e : Event V) : M unit := fun c => (Returned tt, c, [e]).

(** Reading a module-level variable. *)
Definition read {A} (f : S -> A) : M A := fun c => (Returned (f (session c)), c, []).

(** [x = v] for the module-level variable [x], with its setter [set]. *)
Definition assign (set : V -> JsStr -> S -> S) (x : V) (v : JsStr) : M unit := fun c =>
  (Returned tt, {| session := set x v (session c); dom := dom c |}, [Assign x v]).

Definition console_log (label : string) (x : Logged) : M unit := emit (Log label x).

(** [document.getElementById(id).value] *)
Definition input_value (id : string) : M string := fun c =>
  (Returned (getValue id (dom c)), c, [ReadInput id]).

(** [document.getElementById(id).innerText = v] *)
Definition set_innerText (id : string) (v : JsStr) : M unit := fun c =>
  (Returned tt, {| session := session c; dom := setInnerText id (to_string v) (dom c) |},
   [SetInnerText id (to_string v)]).

(** [await] of a gateway promise: the request is observed, a rejection throws. *)
Definition await {A} (request : Event V) (p : Promise A) : M A := fun c =>
  match p with
  | Fulfilled a => (Returned a, c, [request])
  | Rejected reason => (Thrown (GatewayError reason), c, [request])
  end.

(** [if (result.isErr()) throw result.error], then [result.value]. *)
Definition unwrap {A} (result : Result A) : M A :=
  match result with
  | Err error => throw (WalletError error)
  | Ok value => ret value
  end.

(** [xs[i]] followed by a property read: [undefined] has no properties. *)
Definition index_or_throw {A} (what : string) (xs : list A) (i : nat) : M A :=
  match xs !! i with
  | Some x => ret x
  | None => throw (TypeError what)
  end.

Definition outcome {A} (r : Outcome A * Config * list (Event V)) : Outcome A := r.1.1.
Definition final {A} (r : Outcome A * Config * list (Event V)) : Config := r.1.2.
Definition trace {A} (r : Outcome A * Config * list (Event V)) : list (Event V) := r.2.
End Machine.
Arguments Config : clear implicits.
Arguments M : clear implicits.

Declare Scope handler_scope.
Delimit Scope handler_scope with handler.
Notation "x <- m ;; k" := (bind m (fun x => k))
  (at level 100, m at next level, right associativity) : handler_scope.
Notation "m ;; k" := (bind m (fun _ => k))
  (at level 100, right associativity) : handler_scope.

Local Open Scope handler_scope.

(** * The dapp-toolkit front-end ([client/main.js]) *)

Module Toolkit.

(** The six module-level variables ("Global states"). *)
Inductive Var :=
| accountAddress_ | componentAddress_ | gum_resourceAddress_
| xrdAddress_ | admin_badge_ | owner_badge_.

Record Session := mkSession {
  accountAddress : JsStr;
  componentAddress : JsStr;
  gum_resourceAddress : JsStr;
  xrdAddress : JsStr;
  admin_badge : JsStr;
  owner_badge : JsStr
}.

(** The values the script gives them when it is loaded. *)
Definition initial : Session := {|
  accountAddress := None;
  componentAddress := Some "component_tdx_e_1crt0ndkk0x7rexswhczacj2405tgzh0zv3t0fr7czdxnd8y8vgjuyw";
  gum_resourceAddress := Some "resource_tdx_e_1t5hrjudhk4yd5m4svujx5ytvtvjaj5ufuahxaauru72ed7vrce8q34";
  xrdAddress := Some "resource_tdx_e_1tknxxxxxxxxxradxrdxxxxxxxxx009923554798xxxxxxxxx8rpsmc";
  admin_badge := Some "resource_tdx_e_1t5kmfczjh3g5vs7gj9jcarmgt0u29qfj50kngxqv2cnny9rr89fd94";
  owner_badge := Some "resource_tdx_e_1tk35c2pnzy4fr6ms5wpm8v4rsw76h7ptyydvqgs88jk58eqmaeqt45"
|}.

Definition set (x : Var) (v : JsStr) (s : Session) : Session :=
  match x with
  | accountAddress_ =>
      mkSession v (componentAddress s) (gum_resourceAddress s) (xrdAddress s) (admin_badge s) (owner_badge s)
  | componentAddress_ =>
      mkSession (accountAddress s) v (gum_resourceAddress s) (xrdAddress s) (admin_badge s) (owner_badge s)
  | gum_resourceAddress_ =>
      mkSession (accountAddress s) (componentAddress s) v (xrdAddress s) (admin_badge s) (owner_badge s)
  | xrdAddress_ =>
      mkSession (accountAddress s) (componentAddress s) (gum_resourceAddress s) v (admin_badge s) (owner_badge s)
  | admin_badge_ =>
      mkSession (accountAddress s) (componentAddress s) (gum_resourceAddress s) (xrdAddress s) v (owner_badge s)
  | owner_badge_ =>
      mkSession (accountAddress s) (componentAddress s) (gum_resourceAddress s) (xrdAddress s) (admin_badge s) v
  end.

(** [rdt.walletApi] and [rdt.gatewayApi], as far as the handlers call them.
    A handler calls each of them at most once, so a function of the request
    describes every behaviour of the collaborators during one run. *)
Record World := {
  sendTransaction : string -> nat -> Result TxResult;
  getStatus : string -> Promise TransactionStatus;
  getCommittedDetails : string -> Promise CommittedDetails;
  getEntityDetailsVaultAggregated : JsStr -> Promise EntityDetails
}.

Abbreviation H := (M Var Session).

(** ** The manifests (template literals, character for character) *)

Definition instantiate_manifest (packageAddress flavor : string) (accountAddress : JsStr) : string :=
  nl +:+
  "  CALL_FUNCTION" +:+ nl +:+
  "    Address(" +:+ dq +:+ packageAddress +:+ dq +:+ ")" +:+ nl +:+
  "    " +:+ dq +:+ "GumballMachine" +:+ dq +:+ nl +:+
  "    " +:+ dq +:+ "instantiate_gumball_machine" +:+ dq +:+ nl +:+
  "    Decimal(" +:+ dq +:+ "5" +:+ dq +:+ ")" +:+ nl +:+
  "    " +:+ dq +:+ flavor +:+ dq +:+ ";" +:+ nl +:+
  "  CALL_METHOD" +:+ nl +:+
  "    Address(" +:+ dq +:+ to_string accountAddress +:+ dq +:+ ")" +:+ nl +:+
  "    " +:+ dq +:+ "deposit_batch" +:+ dq +:+ nl +:+
  "    Expression(" +:+ dq +:+ "ENTIRE_WORKTOP" +:+ dq +:+ ");" +:+ nl +:+
  "    ".

Definition buy_manifest (accountAddress xrdAddress componentAddress : JsStr) : string :=
  nl +:+
  "  CALL_METHOD" +:+ nl +:+
  "    Address(" +:+ dq +:+ to_string accountAddress +:+ dq +:+ ")" +:+ nl +:+
  "    " +:+ dq +:+ "withdraw" +:+ dq +:+ "    " +:+ nl +:+
  "    Address(" +:+ dq +:+ to_string xrdAddress +:+ dq +:+ ")" +:+ nl +:+
  "    Decimal(" +:+ dq +:+ "33" +:+ dq +:+ ");" +:+ nl +:+
  "  TAKE_ALL_FROM_WORKTOP" +:+ nl +:+
  "    Address(" +:+ dq +:+ to_string xrdAddress +:+ dq +:+ ")" +:+ nl +:+
  "    Bucket(" +:+ dq +:+ "xrd" +:+ dq +:+ ");" +:+ nl +:+
  "  CALL_METHOD" +:+ nl +:+
  "    Address(" +:+ dq +:+ to_string componentAddress +:+ dq +:+ ")" +:+ nl +:+
  "    " +:+ dq +:+ "buy_gumball" +:+ dq +:+ nl +:+
  "    Bucket(" +:+ dq +:+ "xrd" +:+ dq +:+ ");" +:+ nl +:+
  "  CALL_METHOD" +:+ nl +:+
  "    Address(" +:+ dq +:+ to_string accountAddress +:+ dq +:+ ")" +:+ nl +:+
  "    " +:+ dq +:+ "deposit_batch" +:+ dq +:+ nl +:+
  "    Expression(" +:+ dq +:+ "ENTIRE_WORKTOP" +:+ dq +:+ ");" +:+ nl +:+
  "    ".

Definition setPrice_manifest (newPrice : string) (accountAddress admin_badge componentAddress : JsStr) : string :=
  nl +:+
  "  CALL_METHOD" +:+ nl +:+
  "    Address(" +:+ dq +:+ to_string accountAddress +:+ dq +:+ ")" +:+ nl +:+
  "    " +:+ dq +:+ "create_proof_of_amount" +:+ dq +:+ "    " +:+ nl +:+
  "    Address(" +:+ dq +:+ to_string admin_badge +:+ dq +:+ ")" +:+ nl +:+
  "    Decimal(" +:+ dq +:+ "1" +:+ dq +:+ ");" +:+ nl +:+
  "CALL_METHOD" +:+ nl +:+
  "    Address(" +:+ dq +:+ to_string componentAddress +:+ dq +:+ ")" +:+ nl +:+
  "    " +:+ dq +:+ "set_price" +:+ dq +:+ nl +:+
  "    Decimal(" +:+ dq +:+ newPrice +:+ dq +:+ ");" +:+ nl +:+
  "  ".

Definition withdrawEarnings_manifest (accountAddress owner_badge componentAddress : JsStr) : string :=
  nl +:+
  "  CALL_METHOD" +:+ nl +:+
  "    Address(" +:+ dq +:+ to_string accountAddress +:+ dq +:+ ")" +:+ nl +:+
  "    " +:+ dq +:+ "create_proof_of_amount" +:+ dq +:+ "    " +:+ nl +:+
  "    Address(" +:+ dq +:+ to_string owner_badge +:+ dq +:+ ")" +:+ nl +:+
  "    Decimal(" +:+ dq +:+ "1" +:+ dq +:+ ");" +:+ nl +:+
  "  CALL_METHOD" +:+ nl +:+
  "    Address(" +:+ dq +:+ to_string componentAddress +:+ dq +:+ ")" +:+ nl +:+
  "    " +:+ dq +:+ "withdraw_earnings" +:+ dq +:+ ";" +:+ nl +:+
  "  CALL_METHOD" +:+ nl +:+
  "    Address(" +:+ dq +:+ to_string accountAddress +:+ dq +:+ ")" +:+ nl +:+
  "    " +:+ dq +:+ "deposit_batch" +:+ dq +:+ nl +:+
  "    Expression(" +:+ dq +:+ "ENTIRE_WORKTOP" +:+ dq +:+ ");" +:+ nl +:+
  "    ".

Definition mintStaffBadge_manifest (accountAddress admin_badge componentAddress : JsStr) : string :=
  nl +:+
  "  CALL_METHOD" +:+ nl +:+
  "    Address(" +:+ dq +:+ to_string accountAddress +:+ dq +:+ ")" +:+ nl +:+
  "    " +:+ dq +:+ "create_proof_of_amount" +:+ dq +:+ "    " +:+ nl +:+
  "    Address(" +:+ dq +:+ to_string admin_badge +:+ dq +:+ ")" +:+ nl +:+
  "    Decimal(" +:+ dq +:+ "1" +:+ dq +:+ ");" +:+ nl +:+
  "CALL_METHOD" +:+ nl +:+
  "    Address(" +:+ dq +:+ to_string componentAddress +:+ dq +:+ ")" +:+ nl +:+
  "    " +:+ dq +:+ "mint_staff_badge" +:+ dq +:+ nl +:+
  "    " +:+ dq +:+ "Number2" +:+ dq +:+ ";" +:+ nl +:+
  "CALL_METHOD" +:+ nl +:+
  "    Address(" +:+ dq +:+ to_string accountAddress +:+ dq +:+ ")" +:+ nl +:+
  "    " +:+ dq +:+ "deposit_batch" +:+ dq +:+ nl +:+
  "    Expression(" +:+ dq +:+ "ENTIRE_WORKTOP" +:+ dq +:+ ");" +:+ nl +:+
  "    ".

(** A manifest of this front-end is a JavaScript string, and
    [String.prototype.toString] returns the string itself. *)
Definition toString (manifest : string) : string := manifest.

(** ** The collaborators' calls *)

(** [await rdt.walletApi.sendTransaction({transactionManifest, version})] *)
Definition send (w : World) (manifest : string) (version : nat) : H (Result TxResult) :=
  emit (SendTransaction manifest version) ;;
  ret (sendTransaction w manifest version).

(** [await rdt.gatewayApi.transaction.getStatus(hash)] and its siblings. *)
Definition gateway_getStatus (w : World) (hash : string) : H TransactionStatus :=
  await (GetStatus hash) (getStatus w hash).

Definition gateway_getCommittedDetails (w : World) (hash : string) : H CommittedDetails :=
  await (GetCommittedDetails hash) (getCommittedDetails w hash).

Definition gateway_getEntityDetails (w : World) (addr : JsStr) : H EntityDetails :=
  await (GetEntityDetails addr) (getEntityDetailsVaultAggregated w addr).

(** ** The handlers *)

(** [rdt.walletApi.walletData$.subscribe((walletData) => ...)] *)
Definition onWalletData (walletData : WalletData) : H unit :=
  console_log "subscription wallet data: " (LWalletData walletData) ;;
  a <- index_or_throw "walletData.accounts[0]" (accounts walletData) 0 ;;
  set_innerText "accountName" (Some (label a)) ;;
  a <- index_or_throw "walletData.accounts[0]" (accounts walletData) 0 ;;
  set_innerText "accountAddress" (Some (address a)) ;;
  a <- index_or_throw "walletData.accounts[0]" (accounts walletData) 0 ;;
  assign set accountAddress_ (Some (address a)).

(** [document.getElementById('instantiateComponent').onclick] *)
Definition instantiateComponent (w : World) : H unit :=
  packageAddress <- input_value "packageAddress" ;;
  flavor <- input_value "flavor" ;;
  account <- read accountAddress ;;
  let manifest := instantiate_manifest packageAddress flavor account in
  console_log "Instantiate Manifest: " (LText manifest) ;;
  result <- send w manifest 1 ;;
  value <- unwrap result ;;
  console_log "Intantiate WalletSDK Result: " (LTx value) ;;
  transactionStatus <- gateway_getStatus w (transactionIntentHash value) ;;
  console_log "Instantiate TransactionApi transaction/status:" (LStatus transactionStatus) ;;
  getCommitReceipt <- gateway_getCommittedDetails w (transactionIntentHash value) ;;
  console_log "Instantiate getCommittedDetails:" (LDetails getCommitReceipt) ;;
  assign set componentAddress_ (affected_global_entities getCommitReceipt !! 2) ;;
  v <- read componentAddress ;;
  set_innerText "componentAddress" v ;;
  assign set admin_badge_ (affected_global_entities getCommitReceipt !! 4) ;;
  v <- read admin_badge ;;
  set_innerText "admin_badge" v ;;
  assign set owner_badge_ (affected_global_entities getCommitReceipt !! 3) ;;
  v <- read owner_badge ;;
  set_innerText "owner_badge" v ;;
  assign set gum_resourceAddress_ (affected_global_entities getCommitReceipt !! 6) ;;
  v <- read gum_resourceAddress ;;
  set_innerText "gum_resourceAddress" v.

(** [document.getElementById('buyGumball').onclick] *)
Definition buyGumball (w : World) : H unit :=
  account <- read accountAddress ;;
  xrd <- read xrdAddress ;;
  component <- read componentAddress ;;
  let manifest := buy_manifest account xrd component in
  console_log "buy_gumball manifest: " (LText manifest) ;;
  result <- send w manifest 1 ;;
  value <- unwrap result ;;
  console_log "Buy Gumball sendTransaction Result: " (LTx value) ;;
  transactionStatus <- gateway_getStatus w (transactionIntentHash value) ;;
  console_log "Buy Gumball TransactionAPI transaction/status: " (LStatus transactionStatus) ;;
  getCommitReceipt <- gateway_getCommittedDetails w (transactionIntentHash value) ;;
  console_log "Buy Gumball Committed Details Receipt" (LDetails getCommitReceipt) ;;
  set_innerText "receipt" (Some (details_json getCommitReceipt)).

(** [document.getElementById('getPrice').onclick] *)
Definition getPrice (w : World) : H unit :=
  component <- read componentAddress ;;
  getPrice <- gateway_getEntityDetails w component ;;
  console_log "getPrice" (LEntity getPrice) ;;
  field <- index_or_throw "getPrice.details.state.fields[2]" (fields getPrice) 2 ;;
  set_innerText "price" (Some field).

(** [document.getElementById('setPrice').onclick] *)
Definition setPrice (w : World) : H unit :=
  newPrice <- input_value "newPrice" ;;
  account <- read accountAddress ;;
  badge <- read admin_badge ;;
  component <- read componentAddress ;;
  let manifest := setPrice_manifest newPrice account badge component in
  console_log "Set Price manifest" (LText manifest) ;;
  result <- send w manifest 1 ;;
  value <- unwrap result ;;
  console_log "Set Price sendTransaction result: " (LTx value) ;;
  transactionStatus <- gateway_getStatus w (transactionIntentHash value) ;;
  console_log "Set Price transaction status" (LStatus transactionStatus) ;;
  component <- read componentAddress ;;
  getPrice <- gateway_getEntityDetails w component ;;
  console_log "Set Price new value" (LEntity getPrice) ;;
  field <- index_or_throw "getPrice.details.state.fields[2]" (fields getPrice) 2 ;;
  set_innerText "price" (Some field).

(** [document.getElementById('withdrawEarnings').onclick] *)
Definition withdrawEarnings (w : World) : H unit :=
  account <- read accountAddress ;;
  badge <- read owner_badge ;;
  component <- read componentAddress ;;
  let manifest := withdrawEarnings_manifest account badge component in
  console_log "Withdraw Earnings manifest" (LText manifest) ;;
  result <- send w manifest 1 ;;
  value <- unwrap result ;;
  console_log "Withdraw Earnings sendTransaction Result: " (LTx value) ;;
  transactionStatus <- gateway_getStatus w (transactionIntentHash value) ;;
  console_log "Withdraw Earnings status" (LStatus transactionStatus) ;;
  getCommitReceipt <- gateway_getCommittedDetails w (transactionIntentHash value) ;;
  console_log "Withdraw Earnings commitReceipt" (LDetails getCommitReceipt) ;;
  set_innerText "withdraw" (Some (details_json getCommitReceipt)).

(** [document.getElementById('mintStaffBadge').onclick] *)
Definition mintStaffBadge (w : World) : H unit :=
  account <- read accountAddress ;;
  badge <- read admin_badge ;;
  component <- read componentAddress ;;
  let manifest := mintStaffBadge_manifest account badge component in
  console_log "mintStaffBadge manifest" (LText manifest) ;;
  result <- send w manifest 1 ;;
  value <- unwrap result ;;
  console_log "mintStaffBadge sendTransaction Result: " (LTx value) ;;
  transactionStatus <- gateway_getStatus w (transactionIntentHash value) ;;
  console_log "mintStaffBadge status" (LStatus transactionStatus) ;;
  getCommitReceipt <- gateway_getCommittedDetails w (transactionIntentHash value) ;;
  console_log "mintStaffBadge commitReceipt" (LDetails getCommitReceipt) ;;
  set_innerText "staffBadge" (Some (details_json getCommitReceipt)).

(** ** The mutating operations *)

Inductive Op := Instantiate | Buy | SetPrice | WithdrawEarnings | MintBadge.

Definition handler (op : Op) : World -> H unit :=
  match op with
  | Instantiate => instantiateComponent
  | Buy => buyGumball
  | SetPrice => setPrice
  | WithdrawEarnings => withdrawEarnings
  | MintBadge => mintStaffBadge
  end.

(** The manifest an operation builds from the variables and the input fields
    it finds. *)
Definition manifest_of (op : Op) (c : Config Session) : string :=
  let s := session c in
  match op with
  | Instantiate =>
      instantiate_manifest (getValue "packageAddress" (dom c)) (getValue "flavor" (dom c))
        (accountAddress s)
  | Buy => buy_manifest (accountAddress s) (xrdAddress s) (componentAddress s)
  | SetPrice =>
      setPrice_manifest (getValue "newPrice" (dom c)) (accountAddress s) (admin_badge s)
        (componentAddress s)
  | WithdrawEarnings =>
      withdrawEarnings_manifest (accountAddress s) (owner_badge s) (componentAddress s)
  | MintBadge => mintStaffBadge_manifest (accountAddress s) (admin_badge s) (componentAddress s)
  end.

End Toolkit.

(** * The wallet-sdk front-end ([src/index.ts]) *)

Module WalletSdk.

(** The three module-level variables; none has an initial value. *)
Inductive Var := accountAddress_ | componentAddress_ | resourceAddress_.

Record Session := mkSession {
  accountAddress : JsStr;
  componentAddress : JsStr;
  resourceAddress : JsStr
}.

Definition initial : Session :=
  {| accountAddress := None; componentAddress := None; resourceAddress := None |}.

Definition set (x : Var) (v : JsStr) (s : Session) : Session :=
  match x with
  | accountAddress_ => mkSession v (componentAddress s) (resourceAddress s)
  | componentAddress_ => mkSession (accountAddress s) v (resourceAddress s)
  | resourceAddress_ => mkSession (accountAddress s) (componentAddress s) v
  end.

(** ** The builder form of a manifest *)

(** An argument handed to the builder: the SDK's [Decimal(...)] value, or a
    string the handler wrote out itself. *)
Inductive Arg := Decimal (s : string) | Raw (s : string).

(** One call on [new ManifestBuilder()], with the arguments the handler gave. *)
Inductive BuilderCall :=
| callFunction (packageAddress blueprint function : string) (args : list Arg)
| callMethod (componentAddress : JsStr) (method : string) (args : list Arg)
| withdrawFromAccountByAmount (accountAddress : JsStr) (amount : nat) (resourceAddress : string)
| takeFromWorktopByAmount (amount : nat) (resourceAddress bucketName : string).

(** What the handlers call [manifest]: a JavaScript string, or the object
    that [build()] returns. *)
Inductive ManifestValue := Text (s : string) | Built (calls : list BuilderCall).

(** The builder accumulates its calls in order; [build()] closes the list. *)
Definition ManifestBuilder : Type := list BuilderCall.
Definition new_ManifestBuilder : ManifestBuilder := [].
Definition call (c : BuilderCall) (b : ManifestBuilder) : ManifestBuilder := b ++ [c].
Definition build (b : ManifestBuilder) : ManifestValue := Built b.

(** [walletSdk], [transactionApi] and the SDK's rendering of a built manifest
    ([Manifest.toString]), which the repository imports and does not define. *)
Record World := {
  manifest_toString : list BuilderCall -> string;
  request : Result RequestValue;
  sendTransaction : string -> nat -> Result TxResult;
  transactionStatus : string -> Promise TransactionStatus
}.

(** [m.toString()]: the SDK renders a built manifest, and
    [String.prototype.toString] returns the string itself. *)
Definition toString (w : World) (m : ManifestValue) : string :=
  match m with
  | Text s => s
  | Built calls => manifest_toString w calls
  end.

Abbreviation H := (M Var Session).

Definition gumball_xrd : string :=
  "resource_tdx_b_1qzkcyv5dwq3r6kawy6pxpvcythx8rh8ntum6ws62p95s9hhz9x".

Definition instantiate_build (packageAddress : string) : ManifestValue :=
  build
    (call (callFunction packageAddress "GumballMachine" "instantiate_gumball_machine"
             [Decimal "10"])
       new_ManifestBuilder).

Definition buy_build (accountAddress componentAddress : JsStr) : ManifestValue :=
  build
    (call (callMethod accountAddress "deposit_batch"
             [Raw ("Expression(" +:+ dq +:+ "ENTIRE_WORKTOP" +:+ dq +:+ ")")])
    (call (callMethod componentAddress "buy_gumball"
             [Raw ("Bucket(" +:+ dq +:+ "bucket1" +:+ dq +:+ ")")])
    (call (takeFromWorktopByAmount 10 gumball_xrd "bucket1")
    (call (withdrawFromAccountByAmount accountAddress 10 gumball_xrd)
       new_ManifestBuilder)))).

(** [await walletSdk.sendTransaction({...})], the result kept as it is. *)
Definition send (w : World) (manifest : string) (version : nat) : H (Result TxResult) :=
  emit (SendTransaction manifest version) ;;
  ret (sendTransaction w manifest version).

(** ** The handlers *)

(** [document.getElementById('fetchAccountAddress').onclick] *)
Definition fetchAccountAddress (w : World) : H unit :=
  console_log "getting account info" LNothing ;;
  emit WalletRequest ;;
  let result := request w in
  value <- unwrap result ;;
  console_log "requestItem.oneTimeAccounts.withoutProofOfOwnership(1) " (LRequest result) ;;
  match oneTimeAccounts value with
  | None => ret tt
  | Some oneTimeAccounts =>
      a <- index_or_throw "oneTimeAccounts[0]" oneTimeAccounts 0 ;;
      set_innerText "accountAddress" (Some (address a)) ;;
      a <- index_or_throw "oneTimeAccounts[0]" oneTimeAccounts 0 ;;
      assign set accountAddress_ (Some (address a))
  end.

(** [document.getElementById('instantiateComponent').onclick] *)
Definition instantiateComponent (w : World) : H unit :=
  packageAddress <- input_value "packageAddress" ;;
  let manifest := toString w (instantiate_build packageAddress) in
  console_log "manifest: " (LText manifest) ;;
  result <- send w manifest 1 ;;
  value <- unwrap result ;;
  console_log "Intantiate Result: " (LTx value) ;;
  response <- await (GetStatus (transactionIntentHash value))
                (transactionStatus w (transactionIntentHash value)) ;;
  console_log "response" (LStatus response).

(** [document.getElementById('buyGumball').onclick] *)
Definition buyGumball (w : World) : H unit :=
  account <- read accountAddress ;;
  component <- read componentAddress ;;
  let manifest := toString w (buy_build account component) in
  result <- send w manifest 1 ;;
  value <- unwrap result ;;
  console_log "buyGumball result: " (LTxResult result).

(** ** The mutating operations *)

Inductive Op := Instantiate | Buy.

Definition handler (op : Op) : World -> H unit :=
  match op with
  | Instantiate => instantiateComponent
  | Buy => buyGumball
  end.

(** The builder form an operation constructs from the variables and the input
    fields it finds, and the string it hands to the wallet. *)
Definition built_of (op : Op) (c : Config Session) : ManifestValue :=
  match op with
  | Instantiate => instantiate_build (getValue "packageAddress" (dom c))
  | Buy => buy_build (accountAddress (session c)) (componentAddress (session c))
  end.

Definition manifest_of (w : World) (op : Op) (c : Config Session) : string :=
  toString w (built_of op c).

End WalletSdk.

(** * Reading a manifest text

    The manifest language is a sequence of instructions, each a run of
    whitespace-separated tokens closed by a semicolon; whitespace and
    semicolons inside a string literal belong to the literal, and a backslash
    inside a literal escapes the next character.  [instructions] reads a
    manifest text this way, so that two texts that differ only in layout have
    the same reading. *)

Module Manifest.

Definition is_white (c : ascii) : bool :=
  Ascii.eqb c " " || Ascii.eqb c "010" || Ascii.eqb c "009" || Ascii.eqb c "013".

Definition is_quote (c : ascii) : bool := Ascii.eqb c "034".
Definition is_backslash (c : ascii) : bool := Ascii.eqb c backslash.
Definition is_semicolon (c : ascii) : bool := Ascii.eqb c ";".

Definition snoc (tok : string) (c : ascii) : string := tok +:+ String c EmptyString.

(** Closing the token being read, if there is one. *)
Definition push (tok : string) (ins : list string) : list string :=
  match tok with
  | EmptyString => ins
  | _ => ins ++ [tok]
  end.

Definition close (ins : list string) : list (list string) :=
  match ins with
  | [] => []
  | _ => [ins]
  end.

(** [q]: inside a string literal; [esc]: the previous character was an
    escaping backslash; [tok]: the token read so far; [ins]: the tokens of the
    instruction read so far. *)
Fixpoint lex (s : string) (q esc : bool) (tok : string) (ins : list string)
  : list (list string) :=
  match s with
  | EmptyString => close (push tok ins)
  | String c s' =>
      if q then
        if esc then lex s' true false (snoc tok c) ins
        else if is_backslash c then lex s' true true (snoc tok c) ins
        else if is_quote c then lex s' false false (snoc tok c) ins
        else lex s' true false (snoc tok c) ins
      else if is_quote c then lex s' true false (snoc tok c) ins
      else if is_white c then lex s' false false EmptyString (push tok ins)
      else if is_semicolon c then push tok ins :: lex s' false false EmptyString []
      else lex s' false false (snoc tok c) ins
  end.

Definition instructions (manifest : string) : list (list string) :=
  lex manifest false false EmptyString [].

(** A text that can stand between two quotes without ending the literal. *)
Fixpoint plain (s : string) : bool :=
  match s with
  | EmptyString => true
  | String c s' => negb (is_quote c) && negb (is_backslash c) && plain s'
  end.

(** The tokens the handlers write. *)
Definition Str (s : string) : string := dq +:+ s +:+ dq.
Definition Address (a : string) : string := "Address(" +:+ dq +:+ a +:+ dq +:+ ")".
Definition Decimal (d : string) : string := "Decimal(" +:+ dq +:+ d +:+ dq +:+ ")".
Definition Bucket (b : string) : string := "Bucket(" +:+ dq +:+ b +:+ dq +:+ ")".
Definition Expression (e : string) : string := "Expression(" +:+ dq +:+ e +:+ dq +:+ ")".

(** The instructions the manifests are made of. *)
Definition call_function (package blueprint function : string) (args : list string) :=
  "CALL_FUNCTION" :: Address package :: Str blueprint :: Str function :: args.

Definition call_method (component method : string) (args : list string) :=
  "CALL_METHOD" :: Address component :: Str method :: args.

Definition take_all_from_worktop (resource bucket : string) :=
  ["TAKE_ALL_FROM_WORKTOP"; Address resource; Bucket bucket].

Definition deposit_batch (account : string) :=
  call_method account "deposit_batch" [Expression "ENTIRE_WORKTOP"].

Definition create_proof_of_amount (account badge amount : string) :=
  call_method account "create_proof_of_amount" [Address badge; Decimal amount].

End Manifest.

(** * Observations on a trace *)

Section Observations.
Context {V : Type}.

(** The manifests handed to the wallet, in order. *)
Definition submitted (t : list (Event V)) : list string :=
  omap (fun e => match e with SendTransaction m _ => Some m | _ => None end) t.

(** The assignments to module-level variables, in order. *)
Definition assigned (t : list (Event V)) : list (V * JsStr) :=
  omap (fun e => match e with Assign x v => Some (x, v) | _ => None end) t.

(** The [innerText] writes, in order. *)
Definition shown (t : list (Event V)) : list (string * string) :=
  omap (fun e => match e with SetInnerText id s => Some (id, s) | _ => None end) t.

(** The steps of the pipeline: everything but logging and the reading of input
    fields. *)
Definition is_step (e : Event V) : bool :=
  match e with
  | Log _ _ | ReadInput _ => false
  | _ => true
  end.

Definition steps (t : list (Event V)) : list (Event V) := List.filter is_step t.
End Observations.

(** A sequence of clicks, each with the collaborators as they behave at that
    time: every click runs its handler to the end, on the variables and the
    page the previous click left, whether that one threw or not. *)
Fixpoint clicks {V S W Op} (handler : Op -> W -> M V S unit) (ops : list (Op * W))
    (c : Config S) : Config S * list (Event V) :=
  match ops with
  | [] => (c, [])
  | (op, w) :: ops' =>
      let r := handler op w c in
      let r' := clicks handler ops' (final r) in
      (r'.1, trace r ++ r'.2)
  end.

(** * The two front-ends behind one interface

    Both front-ends bind a set of mutating operations to handlers that build a
    manifest from the variables and input fields, render it and hand it to the
    wallet.  [fe_form] is the form in which a manifest is built: a string in
    [main.js], a builder object in [index.ts]. *)

Record Frontend := {
  fe_var : Type;
  fe_session : Type;
  fe_world : Type;
  fe_op : Type;
  fe_form : Type;
  fe_handler : fe_op -> fe_world -> M fe_var fe_session unit;
  fe_build : fe_op -> Config fe_session -> fe_form;
  fe_toString : fe_world -> fe_form -> string;
  fe_text : string -> fe_form;
  fe_wallet : fe_world -> string -> nat -> Result TxResult
}.

Definition toolkit : Frontend := {|
  fe_handler := Toolkit.handler;
  fe_build := Toolkit.manifest_of;
  fe_toString := fun _ => Toolkit.toString;
  fe_text := fun s => s;
  fe_wallet := Toolkit.sendTransaction
|}.

Definition wallet_sdk : Frontend := {|
  fe_handler := WalletSdk.handler;
  fe_build := WalletSdk.built_of;
  fe_toString := WalletSdk.toString;
  fe_text := WalletSdk.Text;
  fe_wallet := WalletSdk.sendTransaction
|}.

Inductive Variant := DappToolkit | WalletSdkVariant.

Definition frontend (v : Variant) : Frontend :=
  match v with
  | DappToolkit => toolkit
  | WalletSdkVariant => wallet_sdk
  end.

(** The string an operation hands to the wallet. *)
Definition fe_manifest (f : Frontend) (w : fe_world f) (op : fe_op f)
    (c : Config (fe_session f)) : string :=
  fe_toString f w (fe_build f op c).

(** The texts a template of [main.js] interpolates between quotes. *)
Definition interpolated (op : Toolkit.Op) (c : Config Toolkit.Session) : list string :=
  let s := session c in
  match op with
  | Toolkit.Instantiate =>
      [getValue "packageAddress" (dom c); getValue "flavor" (dom c);
       to_string (Toolkit.accountAddress s)]
  | Toolkit.Buy =>
      [to_string (Toolkit.accountAddress s); to_string (Toolkit.xrdAddress s);
       to_string (Toolkit.componentAddress s)]
  | Toolkit.SetPrice =>
      [getValue "newPrice" (dom c); to_string (Toolkit.accountAddress s);
       to_string (Toolkit.admin_badge s); to_string (Toolkit.componentAddress s)]
  | Toolkit.WithdrawEarnings =>
      [to_string (Toolkit.accountAddress s); to_string (Toolkit.owner_badge s);
       to_string (Toolkit.componentAddress s)]
  | Toolkit.MintBadge =>
      [to_string (Toolkit.accountAddress s); to_string (Toolkit.admin_badge s);
       to_string (Toolkit.componentAddress s)]
  end.

(** The Admin Actions of [main.js], with the badge, the method and the
    arguments each of them names. *)
Module Admin.

Inductive Action := SetPrice | WithdrawEarnings | MintBadge.

Definition op (a : Action) : Toolkit.Op :=
  match a with
  | SetPrice => Toolkit.SetPrice
  | WithdrawEarnings => Toolkit.WithdrawEarnings
  | MintBadge => Toolkit.MintBadge
  end.

Definition badge (a : Action) (s : Toolkit.Session) : JsStr :=
  match a with
  | SetPrice | MintBadge => Toolkit.admin_badge s
  | WithdrawEarnings => Toolkit.owner_badge s
  end.

Definition method (a : Action) : string :=
  match a with
  | SetPrice => "set_price"
  | WithdrawEarnings => "withdraw_earnings"
  | MintBadge => "mint_staff_badge"
  end.

Definition args (a : Action) (c : Config Toolkit.Session) : list string :=
  match a with
  | SetPrice => [Manifest.Decimal (getValue "newPrice" (dom c))]
  | WithdrawEarnings => []
  | MintBadge => [Manifest.Str "Number2"]
  end.

(** The instructions that follow the privileged call. *)
Definition deposit (a : Action) (s : Toolkit.Session) : list (list string) :=
  match a with
  | SetPrice => []
  | WithdrawEarnings | MintBadge =>
      [Manifest.deposit_batch (to_string (Toolkit.accountAddress s))]
  end.

End Admin.

(** * Sample collaborators and pages, on which the handlers can be run *)

Module Sample.

Definition entities : list string := ["e0"; "e1"; "e2"; "e3"; "e4"; "e5"; "e6"].

Definition receipt : CommittedDetails :=
  {| affected_global_entities := entities; details_json := "{...}" |}.

Definition page : Dom :=
  {| values := {[ "packageAddress" := "pkg1"; "flavor" := "BANANA"; "newPrice" := "7" ]};
     texts := ∅ |}.

(** A wallet that signs everything and a gateway that answers everything. *)
Definition toolkit_world : Toolkit.World := {|
  Toolkit.sendTransaction := fun _ _ => Ok {| transactionIntentHash := "txid_1" |};
  Toolkit.getStatus := fun _ => Fulfilled {| status := "CommittedSuccess" |};
  Toolkit.getCommittedDetails := fun _ => Fulfilled receipt;
  Toolkit.getEntityDetailsVaultAggregated := fun _ => Fulfilled {| fields := ["f0"; "f1"; "33"] |}
|}.

(** The same collaborators with a user who declines. *)
Definition toolkit_declined : Toolkit.World := {|
  Toolkit.sendTransaction := fun _ _ => Err "rejectedByUser";
  Toolkit.getStatus := Toolkit.getStatus toolkit_world;
  Toolkit.getCommittedDetails := Toolkit.getCommittedDetails toolkit_world;
  Toolkit.getEntityDetailsVaultAggregated := Toolkit.getEntityDetailsVaultAggregated toolkit_world
|}.

Definition toolkit_session : Toolkit.Session := {|
  Toolkit.accountAddress := Some "addr1";
  Toolkit.componentAddress := Some "comp1";
  Toolkit.gum_resourceAddress := Some "gum1";
  Toolkit.xrdAddress := Some "xrd1";
  Toolkit.admin_badge := Some "admin1";
  Toolkit.owner_badge := Some "owner1"
|}.

Definition toolkit_config : Config Toolkit.Session :=
  {| session := toolkit_session; dom := page |}.

(** The same variables on a page that already shows a receipt. *)
Definition toolkit_config' : Config Toolkit.Session :=
  {| session := toolkit_session;
     dom := {| values := values page; texts := {[ "receipt" := "{}" ]} |} |}.

(** A stand-in for the SDK's rendering: one line per builder call. *)
Definition render_arg (a : WalletSdk.Arg) : string :=
  match a with
  | WalletSdk.Decimal s => Manifest.Decimal s
  | WalletSdk.Raw s => s
  end.

Definition render_call (c : WalletSdk.BuilderCall) : string :=
  match c with
  | WalletSdk.callFunction p b f args =>
      "CALL_FUNCTION " +:+ p +:+ " " +:+ b +:+ " " +:+ f +:+ " " +:+
      String.concat " " (map render_arg args) +:+ ";"
  | WalletSdk.callMethod a m args =>
      "CALL_METHOD " +:+ to_string a +:+ " " +:+ m +:+ " " +:+
      String.concat " " (map render_arg args) +:+ ";"
  | WalletSdk.withdrawFromAccountByAmount a n r =>
      "WITHDRAW " +:+ to_string a +:+ " " +:+ pretty n +:+ " " +:+ r +:+ ";"
  | WalletSdk.takeFromWorktopByAmount n r b =>
      "TAKE " +:+ pretty n +:+ " " +:+ r +:+ " " +:+ b +:+ ";"
  end.

Definition render (calls : list WalletSdk.BuilderCall) : string :=
  String.concat nl (map render_call calls).

Definition sdk_world : WalletSdk.World := {|
  WalletSdk.manifest_toString := render;
  WalletSdk.request := Ok {| oneTimeAccounts := None |};
  WalletSdk.sendTransaction := fun _ _ => Ok {| transactionIntentHash := "txid_1" |};
  WalletSdk.transactionStatus := fun _ => Fulfilled {| status := "CommittedSuccess" |}
|}.

Definition sdk_declined : WalletSdk.World := {|
  WalletSdk.manifest_toString := render;
  WalletSdk.request := Ok {| oneTimeAccounts := None |};
  WalletSdk.sendTransaction := fun _ _ => Err "rejectedByUser";
  WalletSdk.transactionStatus := WalletSdk.transactionStatus sdk_world
|}.

Definition sdk_session : WalletSdk.Session := {|
  WalletSdk.accountAddress := Some "addr1";
  WalletSdk.componentAddress := Some "comp1";
  WalletSdk.resourceAddress := None
|}.

Definition sdk_config : Config WalletSdk.Session :=
  {| session := sdk_session; dom := page |}.

End Sample.

(** * Everything that can happen on a page

    Besides the clicks on the mutating operations, [main.js] reacts to a click
    on Get Price and to every delivery of wallet data to its subscription;
    [index.ts] reacts to a click on Fetch Account. *)

Module ToolkitPage.

Inductive Action :=
| Click (op : Toolkit.Op)
| ClickGetPrice
| Deliver (walletData : WalletData).

Definition run (a : Action) (w : Toolkit.World) : Toolkit.H unit :=
  match a with
  | Click op => Toolkit.handler op w
  | ClickGetPrice => Toolkit.getPrice w
  | Deliver walletData => Toolkit.onWalletData walletData
  end.

Definition is_delivery (a : Action) : bool :=
  match a with Deliver _ => true | _ => false end.

Definition is_instantiate (a : Action) : bool :=
  match a with Click Toolkit.Instantiate => true | _ => false end.

(** The elements whose [innerText] the handler of an action assigns. *)
Definition targets (a : Action) : list string :=
  match a with
  | Click Toolkit.Instantiate =>
      ["componentAddress"; "admin_badge"; "owner_badge"; "gum_resourceAddress"]
  | Click Toolkit.Buy => ["receipt"]
  | Click Toolkit.SetPrice | ClickGetPrice => ["price"]
  | Click Toolkit.WithdrawEarnings => ["withdraw"]
  | Click Toolkit.MintBadge => ["staffBadge"]
  | Deliver _ => ["accountName"; "accountAddress"]
  end.

End ToolkitPage.

Module SdkPage.

Inductive Action :=
| Click (op : WalletSdk.Op)
| ClickFetchAccount.

Definition run (a : Action) (w : WalletSdk.World) : WalletSdk.H unit :=
  match a with
  | Click op => WalletSdk.handler op w
  | ClickFetchAccount => WalletSdk.fetchAccountAddress w
  end.

End SdkPage.

(** The variables a successful Instantiate of [main.js] leaves, given the
    [affected_global_entities] of the response (lines 73, 77, 81 and 85). *)
Definition instantiated (s : Toolkit.Session) (entities : list string) : Toolkit.Session :=
  {| Toolkit.accountAddress := Toolkit.accountAddress s;
     Toolkit.componentAddress := entities !! 2;
     Toolkit.gum_resourceAddress := entities !! 6;
     Toolkit.xrdAddress := Toolkit.xrdAddress s;
     Toolkit.admin_badge := entities !! 4;
     Toolkit.owner_badge := entities !! 3 |}.

(** Collaborators that answer, but not as the handlers expect. *)
Module Edge.

Definition alice : Account := {| label := "Alice"; address := "addr_alice" |}.
Definition bob : Account := {| label := "Bob"; address := "addr_bob" |}.

(** The gateway rejects the status query. *)
Definition status_rejected : Toolkit.World := {|
  Toolkit.sendTransaction := Toolkit.sendTransaction Sample.toolkit_world;
  Toolkit.getStatus := fun _ => Rejected "503";
  Toolkit.getCommittedDetails := Toolkit.getCommittedDetails Sample.toolkit_world;
  Toolkit.getEntityDetailsVaultAggregated :=
    Toolkit.getEntityDetailsVaultAggregated Sample.toolkit_world
|}.

(** The component state has two fields only. *)
Definition two_fields : Toolkit.World := {|
  Toolkit.sendTransaction := Toolkit.sendTransaction Sample.toolkit_world;
  Toolkit.getStatus := Toolkit.getStatus Sample.toolkit_world;
  Toolkit.getCommittedDetails := Toolkit.getCommittedDetails Sample.toolkit_world;
  Toolkit.getEntityDetailsVaultAggregated := fun _ => Fulfilled {| fields := ["f0"; "f1"] |}
|}.

(** The committed transaction touched two entities only. *)
Definition short_receipt : CommittedDetails :=
  {| affected_global_entities := ["e0"; "e1"]; details_json := "{...}" |}.

Definition short_response : Toolkit.World := {|
  Toolkit.sendTransaction := Toolkit.sendTransaction Sample.toolkit_world;
  Toolkit.getStatus := Toolkit.getStatus Sample.toolkit_world;
  Toolkit.getCommittedDetails := fun _ => Fulfilled short_receipt;
  Toolkit.getEntityDetailsVaultAggregated :=
    Toolkit.getEntityDetailsVaultAggregated Sample.toolkit_world
|}.

(** The wallet shares two accounts, or an empty list of accounts. *)
Definition sdk_two_accounts : WalletSdk.World := {|
  WalletSdk.manifest_toString := Sample.render;
  WalletSdk.request := Ok {| oneTimeAccounts := Some [alice; bob] |};
  WalletSdk.sendTransaction := WalletSdk.sendTransaction Sample.sdk_world;
  WalletSdk.transactionStatus := WalletSdk.transactionStatus Sample.sdk_world
|}.

Definition sdk_no_account : WalletSdk.World := {|
  WalletSdk.manifest_toString := Sample.render;
  WalletSdk.request := Ok {| oneTimeAccounts := Some [] |};
  WalletSdk.sendTransaction := WalletSdk.sendTransaction Sample.sdk_world;
  WalletSdk.transactionStatus := WalletSdk.transactionStatus Sample.sdk_world
|}.

End Edge.

(** * Facts *)

Arguments Toolkit.instantiate_manifest : simpl never.
Arguments Toolkit.buy_manifest : simpl never.
Arguments Toolkit.setPrice_manifest : simpl never.
Arguments Toolkit.withdrawEarnings_manifest : simpl never.
Arguments Toolkit.mintStaffBadge_manifest : simpl never.
Arguments WalletSdk.instantiate_build : simpl never.
Arguments WalletSdk.buy_build : simpl never.

(** Running a handler symbolically: the monad is unfolded, the manifests and
    the collaborators' answers stay as they are. *)
Ltac run_handler :=
  cbv [fe_handler fe_build fe_toString fe_wallet fe_manifest frontend toolkit wallet_sdk
       Toolkit.handler Toolkit.manifest_of Toolkit.toString
       Toolkit.instantiateComponent Toolkit.buyGumball Toolkit.setPrice
       Toolkit.withdrawEarnings Toolkit.mintStaffBadge Toolkit.getPrice Toolkit.onWalletData
       Toolkit.send Toolkit.gateway_getStatus Toolkit.gateway_getCommittedDetails
       Toolkit.gateway_getEntityDetails
       WalletSdk.handler WalletSdk.manifest_of WalletSdk.built_of
       WalletSdk.instantiateComponent WalletSdk.buyGumball WalletSdk.fetchAccountAddress
       WalletSdk.send
       bind ret throw emit read assign console_log input_value set_innerText await unwrap
       index_or_throw outcome final trace session dom fst snd].

(** One case per answer of the next collaborator the handler asks. *)
Ltac case_call :=
  match goal with
  | |- context [Toolkit.sendTransaction ?w ?m ?n] =>
      destruct (Toolkit.sendTransaction w m n) eqn:?
  | |- context [Toolkit.getStatus ?w ?h] => destruct (Toolkit.getStatus w h) eqn:?
  | |- context [Toolkit.getCommittedDetails ?w ?h] =>
      destruct (Toolkit.getCommittedDetails w h) eqn:?
  | |- context [Toolkit.getEntityDetailsVaultAggregated ?w ?a] =>
      destruct (Toolkit.getEntityDetailsVaultAggregated w a) eqn:?
  | |- context [WalletSdk.sendTransaction ?w ?m ?n] =>
      destruct (WalletSdk.sendTransaction w m n) eqn:?
  | |- context [WalletSdk.transactionStatus ?w ?h] =>
      destruct (WalletSdk.transactionStatus w h) eqn:?
  | |- context [WalletSdk.request ?w] => destruct (WalletSdk.request w) eqn:?
  | |- context [oneTimeAccounts ?v] => destruct (oneTimeAccounts v) eqn:?
  | |- context [match ?xs !! ?i with _ => _ end] => destruct (xs !! i) eqn:?
  end.

Ltac case_world := repeat (simpl; case_call); simpl.

(** ** Reading the manifests of [main.js] *)

Section Reading.
#[local] Arguments String.append : simpl nomatch.

Lemma append_assoc (a b c : string) : (a +:+ b) +:+ c = a +:+ b +:+ c.
Proof. induction a as [|x a IH]; simpl; [done | by rewrite IH]. Qed.

Lemma append_empty (a : string) : a +:+ EmptyString = a.
Proof. induction a as [|x a IH]; simpl; [done | by rewrite IH]. Qed.

(** Inside a literal, a text without quotes and backslashes is swallowed whole. *)
Lemma lex_plain (s rest tok : string) (ins : list string) :
  Manifest.plain s = true ->
  Manifest.lex (s +:+ rest) true false tok ins = Manifest.lex rest true false (tok +:+ s) ins.
Proof.
  revert tok. induction s as [|c s IH]; intros tok Hs; simpl in *.
  - by rewrite append_empty.
  - apply andb_prop in Hs as [Hc Hs]. apply andb_prop in Hc as [Hq Hb].
    apply negb_true_iff in Hq, Hb. rewrite Hb, Hq, IH by done.
    unfold Manifest.snoc. by rewrite append_assoc.
Qed.

Ltac read_manifest :=
  unfold Manifest.instructions, nl, dq;
  repeat (simpl; rewrite ?lex_plain by assumption);
  unfold Manifest.create_proof_of_amount, Manifest.deposit_batch,
    Manifest.take_all_from_worktop, Manifest.call_method, Manifest.call_function,
    Manifest.Address, Manifest.Str, Manifest.Decimal, Manifest.Bucket, Manifest.Expression,
    Manifest.snoc, dq;
  simpl; rewrite ?append_assoc; reflexivity.

Ltac plain_hyps H :=
  cbv [interpolated forallb] in H;
  repeat (apply andb_prop in H; let H' := fresh "Hp" in destruct H as [H' H]);
  clear H.

(** The instructions of each of the five templates, for interpolated texts
    that stay inside their quotes. *)
Lemma reading (op : Toolkit.Op) (c : Config Toolkit.Session) :
  forallb Manifest.plain (interpolated op c) = true ->
  Manifest.instructions (Toolkit.manifest_of op c) =
  let s := session c in
  let account := to_string (Toolkit.accountAddress s) in
  let component := to_string (Toolkit.componentAddress s) in
  match op with
  | Toolkit.Instantiate =>
      [ Manifest.call_function (getValue "packageAddress" (dom c)) "GumballMachine"
          "instantiate_gumball_machine"
          [Manifest.Decimal "5"; Manifest.Str (getValue "flavor" (dom c))];
        Manifest.deposit_batch account ]
  | Toolkit.Buy =>
      let xrd := to_string (Toolkit.xrdAddress s) in
      [ Manifest.call_method account "withdraw" [Manifest.Address xrd; Manifest.Decimal "33"];
        Manifest.take_all_from_worktop xrd "xrd";
        Manifest.call_method component "buy_gumball" [Manifest.Bucket "xrd"];
        Manifest.deposit_batch account ]
  | Toolkit.SetPrice =>
      [ Manifest.create_proof_of_amount account (to_string (Toolkit.admin_badge s)) "1";
        Manifest.call_method component "set_price"
          [Manifest.Decimal (getValue "newPrice" (dom c))] ]
  | Toolkit.WithdrawEarnings =>
      [ Manifest.create_proof_of_amount account (to_string (Toolkit.owner_badge s)) "1";
        Manifest.call_method component "withdraw_earnings" [];
        Manifest.deposit_batch account ]
  | Toolkit.MintBadge =>
      [ Manifest.create_proof_of_amount account (to_string (Toolkit.admin_badge s)) "1";
        Manifest.call_method component "mint_staff_badge" [Manifest.Str "Number2"];
        Manifest.deposit_batch account ]
  end.
Proof.
  intros Hp. destruct c as [s d].
  destruct op; plain_hyps Hp; simpl in *;
    cbv [Toolkit.instantiate_manifest Toolkit.buy_manifest Toolkit.setPrice_manifest
         Toolkit.withdrawEarnings_manifest Toolkit.mintStaffBadge_manifest];
    repeat match goal with
    | H : Manifest.plain ?t = true |- _ =>
        lazymatch t with
        | getValue _ _ => idtac
        | to_string _ => idtac
        end;
        generalize dependent t; intros ? ?
    end.
  all: read_manifest.
Qed.
End Reading.

(** A price typed with a quote in it leaves its literal: the reading of the
    Set Price manifest then has instructions that the template never wrote.
    This is why [reading] asks for plain texts. *)
Example quoted_price_adds_an_instruction :
  let newPrice :=
    "1" +:+ dq +:+ "); CALL_METHOD Address(" +:+ dq +:+ "comp1" +:+ dq +:+ ") " +:+ dq +:+
    "free_gumball" +:+ dq +:+ "; CALL_METHOD Address(" +:+ dq +:+ "comp1" +:+ dq +:+ ") " +:+
    dq +:+ "set_price" +:+ dq +:+ " Decimal(" +:+ dq +:+ "0" in
  map (fun ins => ins !! 2)
    (Manifest.instructions
       (Toolkit.setPrice_manifest newPrice (Some "addr1") (Some "admin1") (Some "comp1"))) =
  [ Some (Manifest.Str "create_proof_of_amount"); Some (Manifest.Str "set_price");
    Some (Manifest.Str "free_gumball"); Some (Manifest.Str "set_price") ].
Proof. vm_compute. reflexivity. Qed.

(** ** What every handler of a mutating operation does *)

(** It hands exactly one manifest to the wallet: the rendering of what it
    builds from the variables and the page it finds. *)
Lemma submits_once (v : Variant) (op : fe_op (frontend v)) (w : fe_world (frontend v))
    (c : Config (fe_session (frontend v))) :
  submitted (trace (fe_handler (frontend v) op w c)) = [fe_manifest (frontend v) w op c].
Proof. destruct v; simpl in *; destruct op; run_handler; case_world; reflexivity. Qed.

(** What it builds depends on the variables and on the input fields only. *)
Lemma build_depends_on (v : Variant) (op : fe_op (frontend v))
    (c1 c2 : Config (fe_session (frontend v))) :
  session c1 = session c2 -> values (dom c1) = values (dom c2) ->
  fe_build (frontend v) op c1 = fe_build (frontend v) op c2.
Proof.
  destruct c1 as [s1 d1], c2 as [s2 d2]; simpl. intros -> Hd.
  destruct v; simpl in *; destruct op; simpl; unfold getValue; rewrite ?Hd; reflexivity.
Qed.

(** Until then it has only read input fields and logged: the submission is
    the first step of the pipeline. *)
Lemma submission_is_first_step (v : Variant) (op : fe_op (frontend v))
    (w : fe_world (frontend v)) (c : Config (fe_session (frontend v))) :
  exists rest,
    steps (trace (fe_handler (frontend v) op w c)) =
    SendTransaction (fe_manifest (frontend v) w op c) 1 :: rest.
Proof.
  destruct v; simpl in *; destruct op; run_handler; case_world; eexists; reflexivity.
Qed.

(** ** Instantiate: the stored addresses *)

(** C1.  In [main.js], for every run of the Instantiate handler in which the
    wallet signs the manifest: if the gateway answers the status query and the
    committed-details query, the handler returns, the component, owner-badge,
    admin-badge and gumball-resource variables hold entries 2, 3, 4 and 6 of
    the response's [affected_global_entities] ([undefined] where the list is
    shorter), the four page elements show the same values, and the account and
    XRD variables are untouched; if the gateway rejects one of the two
    queries, the handler throws and nothing at all is stored or shown.  The
    Instantiate handler of [index.ts] assigns no variable and writes no
    element.  So whatever an Instantiate action stores or shows is a
    positional entry of the committed-details response. *)
Theorem instantiate_stores_positional_entries
    (w : Toolkit.World) (c : Config Toolkit.Session) (tx : TxResult) :
  Toolkit.sendTransaction w (Toolkit.manifest_of Toolkit.Instantiate c) 1 = Ok tx ->
  let run := Toolkit.instantiateComponent w c in
  let hash := transactionIntentHash tx in
  match Toolkit.getStatus w hash, Toolkit.getCommittedDetails w hash with
  | Fulfilled _, Fulfilled r =>
      let entities := affected_global_entities r in
      outcome run = Returned tt /\
      session (final run) =
        {| Toolkit.accountAddress := Toolkit.accountAddress (session c);
           Toolkit.componentAddress := entities !! 2;
           Toolkit.gum_resourceAddress := entities !! 6;
           Toolkit.xrdAddress := Toolkit.xrdAddress (session c);
           Toolkit.admin_badge := entities !! 4;
           Toolkit.owner_badge := entities !! 3 |} /\
      texts (dom (final run)) !! "componentAddress" = Some (to_string (entities !! 2)) /\
      texts (dom (final run)) !! "owner_badge" = Some (to_string (entities !! 3)) /\
      texts (dom (final run)) !! "admin_badge" = Some (to_string (entities !! 4)) /\
      texts (dom (final run)) !! "gum_resourceAddress" = Some (to_string (entities !! 6)) /\
      assigned (trace run) =
        [ (Toolkit.componentAddress_, entities !! 2); (Toolkit.admin_badge_, entities !! 4);
          (Toolkit.owner_badge_, entities !! 3);
          (Toolkit.gum_resourceAddress_, entities !! 6) ] /\
      shown (trace run) =
        [ ("componentAddress", to_string (entities !! 2));
          ("admin_badge", to_string (entities !! 4));
          ("owner_badge", to_string (entities !! 3));
          ("gum_resourceAddress", to_string (entities !! 6)) ]
  | Rejected reason, _ | Fulfilled _, Rejected reason =>
      outcome run = Thrown (GatewayError reason) /\ final run = c /\
      assigned (trace run) = [] /\ shown (trace run) = []
  end /\
  (forall (w' : WalletSdk.World) (c' : Config WalletSdk.Session),
     let run' := WalletSdk.instantiateComponent w' c' in
     final run' = c' /\ assigned (trace run') = [] /\ shown (trace run') = []).
Proof.
  intros Hw run hash. subst run hash. split.
  - destruct c as [s d]. simpl in Hw. run_handler. simpl. rewrite Hw. simpl.
    destruct (Toolkit.getStatus w _) as [st | reason]; simpl; [| done].
    destruct (Toolkit.getCommittedDetails w _) as [r | reason]; simpl; [| done].
    unfold setInnerText; simpl. repeat split; by simplify_map_eq.
  - intros w' [s' d']. run_handler. case_world; done.
Qed.

Lemma instantiate_stores_positional_entries_witness :
  let run := Toolkit.instantiateComponent Sample.toolkit_world Sample.toolkit_config in
  outcome run = Returned tt /\
  session (final run) =
    {| Toolkit.accountAddress := Some "addr1";
       Toolkit.componentAddress := Some "e2";
       Toolkit.gum_resourceAddress := Some "e6";
       Toolkit.xrdAddress := Some "xrd1";
       Toolkit.admin_badge := Some "e4";
       Toolkit.owner_badge := Some "e3" |}.
Proof.
  pose proof (instantiate_stores_positional_entries
                Sample.toolkit_world Sample.toolkit_config
                {| transactionIntentHash := "txid_1" |} eq_refl) as [(Ho & Hs & _) _].
  split; [exact Ho | exact Hs].
Defined.

(** ** The wallet declines *)

(** C2.  For every mutating operation of either front-end: when the wallet
    answers the submitted manifest with an error, the handler throws that
    error, the variables and the whole page are what they were, and not even a
    transient assignment or [innerText] write happened. *)
Theorem wallet_error_leaves_state_unchanged
    (v : Variant) (op : fe_op (frontend v)) (w : fe_world (frontend v))
    (c : Config (fe_session (frontend v))) (error : string) :
  fe_wallet (frontend v) w (fe_manifest (frontend v) w op c) 1 = Err error ->
  let run := fe_handler (frontend v) op w c in
  outcome run = Thrown (WalletError error) /\ final run = c /\
  assigned (trace run) = [] /\ shown (trace run) = [].
Proof.
  intros Hw run. subst run.
  destruct v; simpl in *; destruct op, c as [s d];
    cbv [fe_manifest Toolkit.toString] in Hw; simpl in Hw;
    run_handler; simpl; rewrite Hw; simpl; done.
Qed.

Lemma wallet_error_leaves_state_unchanged_witness :
  let run := Toolkit.setPrice Sample.toolkit_declined Sample.toolkit_config in
  outcome run = Thrown (WalletError "rejectedByUser") /\ final run = Sample.toolkit_config /\
  assigned (trace run) = [] /\ shown (trace run) = [].
Proof.
  exact (wallet_error_leaves_state_unchanged DappToolkit Toolkit.SetPrice
           Sample.toolkit_declined Sample.toolkit_config "rejectedByUser" eq_refl).
Defined.

(** ** Building a manifest *)

(** C3.  For every mutating operation of either front-end, take two runs that
    find the same variables and the same input-field values; the rest of the
    page and the answers of wallet and gateway may differ.  Then the two
    manifests are built identical (the same string in [main.js], the same
    builder calls in [index.ts]), and, the SDK's rendering being the same
    function in both runs, each run hands the wallet exactly one manifest and
    the two are the same string.  Building has no effect: the submission is
    the first step of the run, before any assignment, [innerText] write or
    gateway query. *)
Theorem manifest_construction_deterministic
    (v : Variant) (op : fe_op (frontend v)) (w1 w2 : fe_world (frontend v))
    (c1 c2 : Config (fe_session (frontend v))) :
  session c1 = session c2 ->
  values (dom c1) = values (dom c2) ->
  (forall m, fe_toString (frontend v) w1 m = fe_toString (frontend v) w2 m) ->
  fe_build (frontend v) op c1 = fe_build (frontend v) op c2 /\
  submitted (trace (fe_handler (frontend v) op w1 c1)) =
  submitted (trace (fe_handler (frontend v) op w2 c2)) /\
  length (submitted (trace (fe_handler (frontend v) op w1 c1))) = 1 /\
  exists m rest1 rest2,
    steps (trace (fe_handler (frontend v) op w1 c1)) = SendTransaction m 1 :: rest1 /\
    steps (trace (fe_handler (frontend v) op w2 c2)) = SendTransaction m 1 :: rest2.
Proof.
  intros Hs Hd Hr.
  destruct (submission_is_first_step v op w1 c1) as [rest1 H1].
  destruct (submission_is_first_step v op w2 c2) as [rest2 H2].
  rewrite H1, H2, !submits_once. unfold fe_manifest.
  rewrite (build_depends_on v op c1 c2 Hs Hd), Hr. eauto 10.
Qed.

Lemma manifest_construction_deterministic_witness :
  submitted (trace (Toolkit.buyGumball Sample.toolkit_world Sample.toolkit_config)) =
  submitted (trace (Toolkit.buyGumball Sample.toolkit_declined Sample.toolkit_config')).
Proof.
  exact (proj1 (proj2 (manifest_construction_deterministic DappToolkit Toolkit.Buy
           Sample.toolkit_world Sample.toolkit_declined
           Sample.toolkit_config Sample.toolkit_config' eq_refl eq_refl (fun _ => eq_refl)))).
Defined.

(** ** The manifests of the scenarios *)

(** C4, as the code has it.  In [main.js], with package address [pkg1] and
    flavor [flavor] in the input fields and account address [addr1] (texts
    without quotes and backslashes), the one manifest handed to the wallet
    reads: a call of [pkg1]'s [GumballMachine::instantiate_gumball_machine]
    with [Decimal("5")] and the flavor as a string, then a [deposit_batch] of
    the entire worktop to [addr1].  In [index.ts] the manifest is built from
    the single builder call [callFunction(pkg1, "GumballMachine",
    "instantiate_gumball_machine", [Decimal("10")])]: no flavor, no deposit. *)
Theorem instantiate_manifest_scenario (pkg1 flavor addr1 : string) :
  Manifest.plain pkg1 = true -> Manifest.plain flavor = true -> Manifest.plain addr1 = true ->
  (forall (w : Toolkit.World) (c : Config Toolkit.Session),
     getValue "packageAddress" (dom c) = pkg1 ->
     getValue "flavor" (dom c) = flavor ->
     Toolkit.accountAddress (session c) = Some addr1 ->
     exists m,
       submitted (trace (Toolkit.instantiateComponent w c)) = [m] /\
       Manifest.instructions m =
         [ Manifest.call_function pkg1 "GumballMachine" "instantiate_gumball_machine"
             [Manifest.Decimal "5"; Manifest.Str flavor];
           Manifest.deposit_batch addr1 ]) /\
  (forall (w : WalletSdk.World) (c : Config WalletSdk.Session),
     getValue "packageAddress" (dom c) = pkg1 ->
     submitted (trace (WalletSdk.instantiateComponent w c)) =
       [ WalletSdk.toString w
           (WalletSdk.Built
              [ WalletSdk.callFunction pkg1 "GumballMachine" "instantiate_gumball_machine"
                  [WalletSdk.Decimal "10"] ]) ]).
Proof.
  intros Pp Pf Pa. split.
  - intros w c Hp Hf Ha. exists (Toolkit.manifest_of Toolkit.Instantiate c). split.
    + apply (submits_once DappToolkit Toolkit.Instantiate).
    + rewrite reading; simpl; rewrite ?Hp, ?Hf, ?Ha; simpl; [done |].
      by rewrite Pp, Pf, Pa.
  - intros w c Hp.
    rewrite (submits_once WalletSdkVariant WalletSdk.Instantiate).
    unfold fe_manifest. simpl. by rewrite Hp.
Qed.

Lemma instantiate_manifest_scenario_witness :
  exists m,
    submitted (trace (Toolkit.instantiateComponent Sample.toolkit_world Sample.toolkit_config))
      = [m] /\
    Manifest.instructions m =
      [ Manifest.call_function "pkg1" "GumballMachine" "instantiate_gumball_machine"
          [Manifest.Decimal "5"; Manifest.Str "BANANA"];
        Manifest.deposit_batch "addr1" ].
Proof.
  exact (proj1 (instantiate_manifest_scenario "pkg1" "BANANA" "addr1" eq_refl eq_refl eq_refl)
           Sample.toolkit_world Sample.toolkit_config eq_refl eq_refl eq_refl).
Defined.

(** C4 as stated fails in [index.ts]: with [pkg1] and [BANANA] on the page and
    account [addr1], the manifest built is one call with [Decimal("10")]; it
    is not a call with [Decimal("5")] and a flavor followed by a deposit. *)
Lemma sdk_instantiate_manifest_differs :
  let built := WalletSdk.built_of WalletSdk.Instantiate Sample.sdk_config in
  submitted (trace (WalletSdk.instantiateComponent Sample.sdk_world Sample.sdk_config)) =
    [WalletSdk.toString Sample.sdk_world built] /\
  built =
    WalletSdk.Built
      [ WalletSdk.callFunction "pkg1" "GumballMachine" "instantiate_gumball_machine"
          [WalletSdk.Decimal "10"] ] /\
  ~ (exists flavor_arg deposit_args,
       built =
         WalletSdk.Built
           [ WalletSdk.callFunction "pkg1" "GumballMachine" "instantiate_gumball_machine"
               [WalletSdk.Decimal "5"; flavor_arg];
             WalletSdk.callMethod (Some "addr1") "deposit_batch" deposit_args ]).
Proof.
  cbv zeta. split; [reflexivity | split; [reflexivity |]].
  intros (? & ? & H). discriminate H.
Qed.

(** C5, as the code has it.  In [main.js], with account [addr1], XRD resource
    [xrd1] and component [comp1] (texts without quotes and backslashes), the
    one manifest handed to the wallet reads: withdraw [Decimal("33")] of
    [xrd1] from [addr1]; take all of [xrd1] from the worktop into the bucket
    [xrd]; call [comp1]'s [buy_gumball] with that bucket; [deposit_batch] the
    entire worktop to [addr1].  In [index.ts] the builder is asked to withdraw
    10 of a resource address written in the code, to take 10 of it into
    [bucket1], to call [buy_gumball] with that bucket and to deposit the
    entire worktop. *)
Theorem buy_manifest_scenario (addr1 xrd1 comp1 : string) :
  Manifest.plain addr1 = true -> Manifest.plain xrd1 = true -> Manifest.plain comp1 = true ->
  (forall (w : Toolkit.World) (c : Config Toolkit.Session),
     Toolkit.accountAddress (session c) = Some addr1 ->
     Toolkit.xrdAddress (session c) = Some xrd1 ->
     Toolkit.componentAddress (session c) = Some comp1 ->
     exists m,
       submitted (trace (Toolkit.buyGumball w c)) = [m] /\
       Manifest.instructions m =
         [ Manifest.call_method addr1 "withdraw"
             [Manifest.Address xrd1; Manifest.Decimal "33"];
           Manifest.take_all_from_worktop xrd1 "xrd";
           Manifest.call_method comp1 "buy_gumball" [Manifest.Bucket "xrd"];
           Manifest.deposit_batch addr1 ]) /\
  (forall (w : WalletSdk.World) (c : Config WalletSdk.Session),
     WalletSdk.accountAddress (session c) = Some addr1 ->
     WalletSdk.componentAddress (session c) = Some comp1 ->
     submitted (trace (WalletSdk.buyGumball w c)) =
       [ WalletSdk.toString w
           (WalletSdk.Built
              [ WalletSdk.withdrawFromAccountByAmount (Some addr1) 10 WalletSdk.gumball_xrd;
                WalletSdk.takeFromWorktopByAmount 10 WalletSdk.gumball_xrd "bucket1";
                WalletSdk.callMethod (Some comp1) "buy_gumball"
                  [WalletSdk.Raw (Manifest.Bucket "bucket1")];
                WalletSdk.callMethod (Some addr1) "deposit_batch"
                  [WalletSdk.Raw (Manifest.Expression "ENTIRE_WORKTOP")] ]) ]).
Proof.
  intros Pa Px Pc. split.
  - intros w c Ha Hx Hc. exists (Toolkit.manifest_of Toolkit.Buy c). split.
    + apply (submits_once DappToolkit Toolkit.Buy).
    + rewrite reading; simpl; rewrite ?Ha, ?Hx, ?Hc; simpl; [done |].
      by rewrite Pa, Px, Pc.
  - intros w c Ha Hc.
    rewrite (submits_once WalletSdkVariant WalletSdk.Buy).
    unfold fe_manifest. simpl. by rewrite Ha, Hc.
Qed.

Lemma buy_manifest_scenario_witness :
  exists m,
    submitted (trace (Toolkit.buyGumball Sample.toolkit_world Sample.toolkit_config)) = [m] /\
    Manifest.instructions m =
      [ Manifest.call_method "addr1" "withdraw"
          [Manifest.Address "xrd1"; Manifest.Decimal "33"];
        Manifest.take_all_from_worktop "xrd1" "xrd";
        Manifest.call_method "comp1" "buy_gumball" [Manifest.Bucket "xrd"];
        Manifest.deposit_batch "addr1" ].
Proof.
  exact (proj1 (buy_manifest_scenario "addr1" "xrd1" "comp1" eq_refl eq_refl eq_refl)
           Sample.toolkit_world Sample.toolkit_config eq_refl eq_refl eq_refl).
Defined.

(** C5 as stated fails in [index.ts]: the amount withdrawn is 10, not 33,
    whatever the resource. *)
Lemma sdk_buy_manifest_differs :
  let built := WalletSdk.built_of WalletSdk.Buy Sample.sdk_config in
  submitted (trace (WalletSdk.buyGumball Sample.sdk_world Sample.sdk_config)) =
    [WalletSdk.toString Sample.sdk_world built] /\
  built =
    WalletSdk.Built
      [ WalletSdk.withdrawFromAccountByAmount (Some "addr1") 10 WalletSdk.gumball_xrd;
        WalletSdk.takeFromWorktopByAmount 10 WalletSdk.gumball_xrd "bucket1";
        WalletSdk.callMethod (Some "comp1") "buy_gumball"
          [WalletSdk.Raw (Manifest.Bucket "bucket1")];
        WalletSdk.callMethod (Some "addr1") "deposit_batch"
          [WalletSdk.Raw (Manifest.Expression "ENTIRE_WORKTOP")] ] /\
  ~ (exists xrd1 rest,
       built =
         WalletSdk.Built (WalletSdk.withdrawFromAccountByAmount (Some "addr1") 33 xrd1 :: rest)).
Proof.
  cbv zeta. split; [reflexivity | split; [reflexivity |]].
  intros (? & ? & H). discriminate H.
Qed.

(** C6, as the code has it.  For every Admin Action of [main.js] (texts
    without quotes and backslashes), the one manifest handed to the wallet
    reads: [create_proof_of_amount] of 1 of the badge from the account (the
    admin badge for Set Price and Mint Badge, the owner badge for Withdraw
    Earnings); then the privileged method on the component ([set_price] with
    the new price, [withdraw_earnings], [mint_staff_badge] with ["Number2"]);
    then, for Withdraw Earnings and Mint Badge, a [deposit_batch] of the entire
    worktop to the account.  The Set Price manifest ends with [set_price]. *)
Theorem admin_manifest_shape (a : Admin.Action) (w : Toolkit.World) (c : Config Toolkit.Session) :
  forallb Manifest.plain (interpolated (Admin.op a) c) = true ->
  exists m,
    submitted (trace (Toolkit.handler (Admin.op a) w c)) = [m] /\
    Manifest.instructions m =
      Manifest.create_proof_of_amount (to_string (Toolkit.accountAddress (session c)))
        (to_string (Admin.badge a (session c))) "1"
      :: Manifest.call_method (to_string (Toolkit.componentAddress (session c)))
           (Admin.method a) (Admin.args a c)
      :: Admin.deposit a (session c).
Proof.
  intros Hp. exists (Toolkit.manifest_of (Admin.op a) c). split.
  - apply (submits_once DappToolkit).
  - rewrite reading by done. by destruct a.
Qed.

Lemma admin_manifest_shape_witness :
  exists m,
    submitted (trace (Toolkit.withdrawEarnings Sample.toolkit_world Sample.toolkit_config))
      = [m] /\
    Manifest.instructions m =
      [ Manifest.create_proof_of_amount "addr1" "owner1" "1";
        Manifest.call_method "comp1" "withdraw_earnings" [];
        Manifest.deposit_batch "addr1" ].
Proof.
  exact (admin_manifest_shape Admin.WithdrawEarnings Sample.toolkit_world Sample.toolkit_config eq_refl).
Defined.

(** C6 as stated fails for Set Price: its manifest has two instructions, and
    none of them deposits. *)
Lemma setPrice_manifest_has_no_deposit :
  let m := Toolkit.manifest_of Toolkit.SetPrice Sample.toolkit_config in
  submitted (trace (Toolkit.setPrice Sample.toolkit_world Sample.toolkit_config)) = [m] /\
  Manifest.instructions m =
    [ Manifest.create_proof_of_amount "addr1" "admin1" "1";
      Manifest.call_method "comp1" "set_price" [Manifest.Decimal "7"] ] /\
  ~ In (Manifest.deposit_batch "addr1") (Manifest.instructions m).
Proof.
  cbv zeta. split; [reflexivity | split; [reflexivity |]].
  vm_compute. intros [H | [H | []]]; discriminate H.
Qed.

(** ** The order of the steps *)




(** ** Fetching the account in [index.ts] *)

(** C9.  When the wallet answers the account request without an error and the
    answer carries no [oneTimeAccounts], the handler returns; the variables
    and the page are what they were, and no assignment and no [innerText]
    write happened. *)
Theorem fetch_account_without_accounts
    (w : WalletSdk.World) (c : Config WalletSdk.Session) (value : RequestValue) :
  WalletSdk.request w = Ok value ->
  oneTimeAccounts value = None ->
  let run := WalletSdk.fetchAccountAddress w c in
  outcome run = Returned tt /\ final run = c /\
  assigned (trace run) = [] /\ shown (trace run) = [].
Proof.
  intros Hr Ha run. subst run. run_handler. simpl. rewrite Hr. simpl. rewrite Ha. done.
Qed.

Lemma fetch_account_without_accounts_witness :
  let run := WalletSdk.fetchAccountAddress Sample.sdk_world Sample.sdk_config in
  outcome run = Returned tt /\ final run = Sample.sdk_config /\
  assigned (trace run) = [] /\ shown (trace run) = [].
Proof.
  exact (fetch_account_without_accounts Sample.sdk_world Sample.sdk_config
           {| oneTimeAccounts := None |} eq_refl eq_refl).
Defined.

(** ** Who assigns the variables of [main.js] *)

(** C10.  The Buy, Set Price, Withdraw Earnings and Mint Badge handlers (and
    Get Price) never assign a module-level variable: whatever the wallet and
    the gateway answer, all six variables hold afterwards what they held
    before.  The two remaining handlers of the file are Instantiate and the
    wallet-data subscription. *)
Theorem other_handlers_keep_session :
  Forall (fun handler : Toolkit.World -> Toolkit.H unit =>
            forall (w : Toolkit.World) (c : Config Toolkit.Session),
              session (final (handler w c)) = session c /\
              assigned (trace (handler w c)) = [])
    [Toolkit.buyGumball; Toolkit.setPrice; Toolkit.withdrawEarnings; Toolkit.mintStaffBadge;
     Toolkit.getPrice].
Proof.
  repeat constructor; destruct c as [s d]; run_handler; case_world; done.
Qed.

(** The two handlers that do assign: the subscription sets the account, and
    Instantiate sets four addresses (see above). *)
Example subscription_assigns_account :
  let walletData := {| accounts := [ {| label := "Main"; address := "addr2" |} ] |} in
  let run := Toolkit.onWalletData walletData Sample.toolkit_config in
  assigned (trace run) = [(Toolkit.accountAddress_, Some "addr2")] /\
  Toolkit.accountAddress (session (final run)) = Some "addr2" /\
  shown (trace run) = [("accountName", "Main"); ("accountAddress", "addr2")].
Proof. cbv zeta. repeat split; reflexivity. Qed.

(** * The rest of the two files *)

(** ** Get Price ([main.js]) *)

(** X1.  Get Price is a read-only query: whatever the gateway answers, the
    handler hands nothing to the wallet, assigns no variable and leaves the
    input fields alone.  With an answer of at least three state fields it
    returns and writes [fields[2]] to the price element, and nothing else;
    with a shorter answer it throws a TypeError, and with a rejected query it
    throws that rejection, the page being untouched in both cases. *)
Theorem getPrice_is_a_read_only_query (w : Toolkit.World) (c : Config Toolkit.Session) :
  let run := Toolkit.getPrice w c in
  submitted (trace run) = [] /\
  session (final run) = session c /\
  values (dom (final run)) = values (dom c) /\
  match Toolkit.getEntityDetailsVaultAggregated w (Toolkit.componentAddress (session c)) with
  | Fulfilled details =>
      match fields details !! 2 with
      | Some field =>
          outcome run = Returned tt /\
          texts (dom (final run)) = <["price" := field]> (texts (dom c))
      | None =>
          outcome run = Thrown (TypeError "getPrice.details.state.fields[2]") /\ final run = c
      end
  | Rejected reason => outcome run = Thrown (GatewayError reason) /\ final run = c
  end.
Proof.
  destruct c as [s d]. run_handler. simpl.
  destruct (Toolkit.getEntityDetailsVaultAggregated w _) as [e | reason]; simpl; [| done].
  destruct (fields e !! 2) as [f |]; simpl; done.
Qed.

(** ** The wallet-data subscription ([main.js]) *)

(** X2.  A delivery of wallet data with at least one account stores the
    address of the first account in [accountAddress], shows its label and its
    address, and touches nothing else; the other accounts play no part.  A
    delivery without accounts throws a TypeError before anything is written:
    the variables and the page are what they were. *)
Theorem subscription_stores_first_account (walletData : WalletData)
    (c : Config Toolkit.Session) :
  let run := Toolkit.onWalletData walletData c in
  match accounts walletData with
  | first :: _ =>
      outcome run = Returned tt /\
      session (final run) =
        Toolkit.set Toolkit.accountAddress_ (Some (address first)) (session c) /\
      texts (dom (final run)) =
        <["accountAddress" := address first]>
          (<["accountName" := label first]> (texts (dom c))) /\
      values (dom (final run)) = values (dom c)
  | [] =>
      outcome run = Thrown (TypeError "walletData.accounts[0]") /\ final run = c /\
      shown (trace run) = []
  end.
Proof.
  destruct c as [s d], walletData as [[| first rest]]; run_handler; simpl; done.
Qed.

(** ** Fetch Account ([index.ts]) *)

(** X3.  When the wallet answers the account request with a non-empty list of
    accounts, the handler returns, [accountAddress] holds the address of the
    first account and the page shows it; the component and resource variables
    and the input fields are untouched, and nothing is handed to the wallet
    for signing. *)
Theorem fetch_account_stores_first_account (w : WalletSdk.World)
    (c : Config WalletSdk.Session) (value : RequestValue) (first : Account)
    (others : list Account) :
  WalletSdk.request w = Ok value ->
  oneTimeAccounts value = Some (first :: others) ->
  let run := WalletSdk.fetchAccountAddress w c in
  outcome run = Returned tt /\
  session (final run) =
    {| WalletSdk.accountAddress := Some (address first);
       WalletSdk.componentAddress := WalletSdk.componentAddress (session c);
       WalletSdk.resourceAddress := WalletSdk.resourceAddress (session c) |} /\
  texts (dom (final run)) = <["accountAddress" := address first]> (texts (dom c)) /\
  values (dom (final run)) = values (dom c) /\
  submitted (trace run) = [].
Proof.
  intros Hr Ha run. subst run. destruct c as [s d]. run_handler. simpl.
  rewrite Hr. simpl. rewrite Ha. simpl. done.
Qed.

Lemma fetch_account_stores_first_account_witness :
  let run := WalletSdk.fetchAccountAddress Edge.sdk_two_accounts Sample.sdk_config in
  outcome run = Returned tt /\
  session (final run) =
    {| WalletSdk.accountAddress := Some "addr_alice";
       WalletSdk.componentAddress := Some "comp1";
       WalletSdk.resourceAddress := None |}.
Proof.
  pose proof (fetch_account_stores_first_account Edge.sdk_two_accounts Sample.sdk_config
                {| oneTimeAccounts := Some [Edge.alice; Edge.bob] |} Edge.alice [Edge.bob]
                eq_refl eq_refl) as (Ho & Hs & _).
  split; [exact Ho | exact Hs].
Defined.

(** X4.  The two ways Fetch Account fails: a wallet error is thrown as it is;
    an empty list of accounts passes the guard [if (!oneTimeAccounts) return]
    (an empty array is not falsy) and the read of [oneTimeAccounts[0].address]
    throws a TypeError.  In both cases the variables and the page are what
    they were. *)
Theorem fetch_account_failures_change_nothing (w : WalletSdk.World)
    (c : Config WalletSdk.Session) (failure : Error) :
  match WalletSdk.request w with
  | Err error => failure = WalletError error
  | Ok value =>
      oneTimeAccounts value = Some [] /\ failure = TypeError "oneTimeAccounts[0]"
  end ->
  let run := WalletSdk.fetchAccountAddress w c in
  outcome run = Thrown failure /\ final run = c /\
  shown (trace run) = [] /\ assigned (trace run) = [].
Proof.
  intros Hf run. subst run. destruct c as [s d]. run_handler. simpl.
  destruct (WalletSdk.request w) as [value | error]; simpl.
  - destruct Hf as [-> ->]. done.
  - subst. done.
Qed.

Lemma fetch_account_failures_change_nothing_witness :
  let run := WalletSdk.fetchAccountAddress Edge.sdk_no_account Sample.sdk_config in
  outcome run = Thrown (TypeError "oneTimeAccounts[0]") /\ final run = Sample.sdk_config /\
  shown (trace run) = [] /\ assigned (trace run) = [].
Proof.
  exact (fetch_account_failures_change_nothing Edge.sdk_no_account Sample.sdk_config
           (TypeError "oneTimeAccounts[0]") (conj eq_refl eq_refl)).
Defined.

(** ** After the wallet signed ([main.js]) *)

(** X5.  For each of the five mutating operations: when the wallet signs and
    the gateway then rejects the status query, or answers it and rejects the
    query that follows (committed details; entity state for Set Price), the
    handler throws that rejection.  The manifest has been submitted all the
    same, and the variables and the page are what they were. *)
Theorem gateway_rejection_after_signature (op : Toolkit.Op) (w : Toolkit.World)
    (c : Config Toolkit.Session) (tx : TxResult) (reason : string) :
  Toolkit.sendTransaction w (Toolkit.manifest_of op c) 1 = Ok tx ->
  match Toolkit.getStatus w (transactionIntentHash tx) with
  | Rejected r => r = reason
  | Fulfilled _ =>
      match op with
      | Toolkit.SetPrice =>
          Toolkit.getEntityDetailsVaultAggregated w (Toolkit.componentAddress (session c)) =
          Rejected reason
      | _ => Toolkit.getCommittedDetails w (transactionIntentHash tx) = Rejected reason
      end
  end ->
  let run := Toolkit.handler op w c in
  outcome run = Thrown (GatewayError reason) /\ final run = c /\
  submitted (trace run) = [Toolkit.manifest_of op c] /\
  assigned (trace run) = [] /\ shown (trace run) = [].
Proof.
  intros Hw Hg run. subst run.
  destruct c as [s d], op; simpl in *; run_handler; simpl; rewrite Hw; simpl;
    destruct (Toolkit.getStatus w _); simpl; subst; try done; rewrite Hg; done.
Qed.

Lemma gateway_rejection_after_signature_witness :
  let run := Toolkit.instantiateComponent Edge.status_rejected Sample.toolkit_config in
  outcome run = Thrown (GatewayError "503") /\ final run = Sample.toolkit_config /\
  submitted (trace run) = [Toolkit.manifest_of Toolkit.Instantiate Sample.toolkit_config] /\
  assigned (trace run) = [] /\ shown (trace run) = [].
Proof.
  exact (gateway_rejection_after_signature Toolkit.Instantiate Edge.status_rejected
           Sample.toolkit_config {| transactionIntentHash := "txid_1" |} "503"
           eq_refl eq_refl).
Defined.

(** X6.  Set Price, when the wallet signs and the gateway answers both
    queries but the component state has fewer than three fields: the handler
    throws a TypeError on [fields[2].value]; the manifest has been submitted,
    the price element and everything else is what it was. *)
Theorem setPrice_without_third_field (w : Toolkit.World) (c : Config Toolkit.Session)
    (tx : TxResult) (st : TransactionStatus) (details : EntityDetails) :
  Toolkit.sendTransaction w (Toolkit.manifest_of Toolkit.SetPrice c) 1 = Ok tx ->
  Toolkit.getStatus w (transactionIntentHash tx) = Fulfilled st ->
  Toolkit.getEntityDetailsVaultAggregated w (Toolkit.componentAddress (session c)) =
    Fulfilled details ->
  length (fields details) <= 2 ->
  let run := Toolkit.setPrice w c in
  outcome run = Thrown (TypeError "getPrice.details.state.fields[2]") /\ final run = c /\
  submitted (trace run) = [Toolkit.manifest_of Toolkit.SetPrice c] /\
  shown (trace run) = [].
Proof.
  intros Hw Hs He Hl run. subst run.
  destruct c as [s d]; simpl in *; run_handler; simpl; rewrite Hw; simpl; rewrite Hs; simpl.
  rewrite He; simpl. rewrite (lookup_ge_None_2 (fields details) 2) by lia. done.
Qed.

Lemma setPrice_without_third_field_witness :
  let run := Toolkit.setPrice Edge.two_fields Sample.toolkit_config in
  outcome run = Thrown (TypeError "getPrice.details.state.fields[2]") /\
  final run = Sample.toolkit_config /\
  submitted (trace run) = [Toolkit.manifest_of Toolkit.SetPrice Sample.toolkit_config] /\
  shown (trace run) = [].
Proof.
  refine (setPrice_without_third_field Edge.two_fields Sample.toolkit_config
            {| transactionIntentHash := "txid_1" |} {| status := "CommittedSuccess" |}
            {| fields := ["f0"; "f1"] |} eq_refl eq_refl eq_refl _).
  simpl. lia.
Defined.

(** ** What a handler writes on the page ([main.js]) *)

(** X7.  For each of the seven handlers (the five mutating operations, Get
    Price, the subscription) and under every answer of wallet and gateway: no
    input field is modified, every [innerText] write goes to one of the
    handler's own elements, and every other element shows what it showed. *)
Theorem handlers_write_their_own_elements (a : ToolkitPage.Action) (w : Toolkit.World)
    (c : Config Toolkit.Session) :
  let run := ToolkitPage.run a w c in
  values (dom (final run)) = values (dom c) /\
  (forall id, id ∉ ToolkitPage.targets a ->
     texts (dom (final run)) !! id = texts (dom c) !! id) /\
  Forall (fun write => write.1 ∈ ToolkitPage.targets a) (shown (trace run)).
Proof.
  cbv zeta. destruct c as [s d].
  destruct a as [[] | | wd]; simpl; run_handler; case_world;
    (split; [reflexivity | split;
      [ intros id Hid; unfold setInnerText; simpl;
        rewrite ?lookup_insert_ne by set_solver; reflexivity
      | repeat constructor; simpl; set_solver ]]).
Qed.

(** ** Who writes which variable, over any sequence of events *)

Lemma action_frame (a : ToolkitPage.Action) (w : Toolkit.World) (c : Config Toolkit.Session) :
  let s := session c in
  let s' := session (final (ToolkitPage.run a w c)) in
  Toolkit.xrdAddress s' = Toolkit.xrdAddress s /\
  (ToolkitPage.is_delivery a = false -> Toolkit.accountAddress s' = Toolkit.accountAddress s) /\
  (ToolkitPage.is_instantiate a = false ->
     Toolkit.componentAddress s' = Toolkit.componentAddress s /\
     Toolkit.gum_resourceAddress s' = Toolkit.gum_resourceAddress s /\
     Toolkit.admin_badge s' = Toolkit.admin_badge s /\
     Toolkit.owner_badge s' = Toolkit.owner_badge s).
Proof.
  cbv zeta. destruct c as [s d].
  destruct a as [[] | | wd]; simpl; run_handler; case_world; done.
Qed.

(** X8.  Over any sequence of clicks and wallet-data deliveries on the page of
    [main.js], each with collaborators answering as they please:
    [xrdAddress] never changes; [accountAddress] does not change unless a
    delivery occurs; the component, gumball-resource and badge addresses do
    not change unless Instantiate is clicked. *)
Theorem variables_have_one_writer
    (events : list (ToolkitPage.Action * Toolkit.World)) (c : Config Toolkit.Session) :
  let s := session c in
  let s' := session (clicks ToolkitPage.run events c).1 in
  Toolkit.xrdAddress s' = Toolkit.xrdAddress s /\
  (forallb (fun e => negb (ToolkitPage.is_delivery e.1)) events = true ->
     Toolkit.accountAddress s' = Toolkit.accountAddress s) /\
  (forallb (fun e => negb (ToolkitPage.is_instantiate e.1)) events = true ->
     Toolkit.componentAddress s' = Toolkit.componentAddress s /\
     Toolkit.gum_resourceAddress s' = Toolkit.gum_resourceAddress s /\
     Toolkit.admin_badge s' = Toolkit.admin_badge s /\
     Toolkit.owner_badge s' = Toolkit.owner_badge s).
Proof.
  cbv zeta. revert c. induction events as [| [a w] events IH]; intros c; [done |].
  cbn [clicks fst forallb].
  destruct (IH (final (ToolkitPage.run a w c))) as (Hx & Ha & Hi).
  destruct (action_frame a w c) as (Hx0 & Ha0 & Hi0).
  split; [congruence | split].
  - intros [Hd Hr]%andb_prop. apply negb_true_iff in Hd.
    rewrite (Ha Hr). auto.
  - intros [Hd Hr]%andb_prop. apply negb_true_iff in Hd.
    destruct (Hi Hr) as (-> & -> & -> & ->). auto.
Qed.

Lemma sdk_action_frame (a : SdkPage.Action) (w : WalletSdk.World)
    (c : Config WalletSdk.Session) :
  let s' := session (final (SdkPage.run a w c)) in
  WalletSdk.componentAddress s' = WalletSdk.componentAddress (session c) /\
  WalletSdk.resourceAddress s' = WalletSdk.resourceAddress (session c).
Proof.
  cbv zeta. destruct c as [s d].
  destruct a as [[] |]; simpl; run_handler; case_world; done.
Qed.

(** X9.  No handler of [index.ts] assigns [componentAddress] or
    [resourceAddress]: over any sequence of clicks on Fetch Account,
    Instantiate and Buy they keep their values.  From the state the script
    starts in they are [undefined] for ever, so every Buy asks the builder for
    a [buy_gumball] call on an [undefined] component. *)
Theorem sdk_component_is_never_assigned
    (events : list (SdkPage.Action * WalletSdk.World)) (c : Config WalletSdk.Session) :
  let c' := (clicks SdkPage.run events c).1 in
  WalletSdk.componentAddress (session c') = WalletSdk.componentAddress (session c) /\
  WalletSdk.resourceAddress (session c') = WalletSdk.resourceAddress (session c) /\
  (session c = WalletSdk.initial ->
   WalletSdk.built_of WalletSdk.Buy c' =
     WalletSdk.buy_build (WalletSdk.accountAddress (session c')) None).
Proof.
  cbv zeta.
  assert (WalletSdk.componentAddress (session (clicks SdkPage.run events c).1) =
          WalletSdk.componentAddress (session c) /\
          WalletSdk.resourceAddress (session (clicks SdkPage.run events c).1) =
          WalletSdk.resourceAddress (session c)) as [Hc Hr].
  { revert c. induction events as [| [a w] events IH]; intros c; [done |].
    cbn [clicks fst]. destruct (IH (final (SdkPage.run a w c))) as [-> ->].
    apply sdk_action_frame. }
  split; [done | split; [done |]].
  intros Hi. simpl. rewrite Hc, Hi. done.
Qed.

(** ** Instantiate, then the other operations ([main.js]) *)

Lemma instantiate_success (w : Toolkit.World) (c : Config Toolkit.Session)
    (tx : TxResult) (st : TransactionStatus) (r : CommittedDetails) :
  Toolkit.sendTransaction w (Toolkit.manifest_of Toolkit.Instantiate c) 1 = Ok tx ->
  Toolkit.getStatus w (transactionIntentHash tx) = Fulfilled st ->
  Toolkit.getCommittedDetails w (transactionIntentHash tx) = Fulfilled r ->
  let entities := affected_global_entities r in
  final (Toolkit.instantiateComponent w c) =
    {| session := instantiated (session c) entities;
       dom := {| values := values (dom c);
                 texts :=
                   <["gum_resourceAddress" := to_string (entities !! 6)]>
                  (<["owner_badge" := to_string (entities !! 3)]>
                  (<["admin_badge" := to_string (entities !! 4)]>
                  (<["componentAddress" := to_string (entities !! 2)]> (texts (dom c))))) |} |}.
Proof.
  intros Hw Hs Hd. destruct c as [s d]. simpl in Hw. run_handler. simpl.
  rewrite Hw. simpl. rewrite Hs. simpl. rewrite Hd. simpl. reflexivity.
Qed.


(** X10.  After an Instantiate that the wallet signed and the gateway
    answered, the next click on any operation submits a manifest written with
    the addresses just stored: Buy calls the component [entities[2]]; Set
    Price and Mint Badge prove the badge [entities[4]], Withdraw Earnings the
    badge [entities[3]], each on the component [entities[2]]; the account and
    the XRD address are the ones from before. *)
Theorem later_operations_use_the_new_addresses (op : Toolkit.Op) (w w' : Toolkit.World)
    (c : Config Toolkit.Session) (tx : TxResult) (st : TransactionStatus)
    (r : CommittedDetails) :
  Toolkit.sendTransaction w (Toolkit.manifest_of Toolkit.Instantiate c) 1 = Ok tx ->
  Toolkit.getStatus w (transactionIntentHash tx) = Fulfilled st ->
  Toolkit.getCommittedDetails w (transactionIntentHash tx) = Fulfilled r ->
  let entities := affected_global_entities r in
  let account := Toolkit.accountAddress (session c) in
  let c' := final (Toolkit.instantiateComponent w c) in
  submitted (trace (Toolkit.handler op w' c')) =
    [ match op with
      | Toolkit.Instantiate => Toolkit.manifest_of Toolkit.Instantiate c
      | Toolkit.Buy =>
          Toolkit.buy_manifest account (Toolkit.xrdAddress (session c)) (entities !! 2)
      | Toolkit.SetPrice =>
          Toolkit.setPrice_manifest (getValue "newPrice" (dom c)) account (entities !! 4)
            (entities !! 2)
      | Toolkit.WithdrawEarnings =>
          Toolkit.withdrawEarnings_manifest account (entities !! 3) (entities !! 2)
      | Toolkit.MintBadge =>
          Toolkit.mintStaffBadge_manifest account (entities !! 4) (entities !! 2)
      end ].
Proof.
  intros Hw Hs Hd entities account c'. subst c'.
  rewrite (submits_once DappToolkit op). unfold fe_manifest. simpl.
  rewrite (instantiate_success w c tx st r Hw Hs Hd). by destruct op.
Qed.

Lemma later_operations_use_the_new_addresses_witness :
  submitted (trace (Toolkit.withdrawEarnings Sample.toolkit_declined
                      (final (Toolkit.instantiateComponent Sample.toolkit_world
                                Sample.toolkit_config)))) =
    [Toolkit.withdrawEarnings_manifest (Some "addr1") (Some "e3") (Some "e2")].
Proof.
  exact (later_operations_use_the_new_addresses Toolkit.WithdrawEarnings
           Sample.toolkit_world Sample.toolkit_declined Sample.toolkit_config
           {| transactionIntentHash := "txid_1" |} {| status := "CommittedSuccess" |}
           Sample.receipt eq_refl eq_refl eq_refl).
Defined.



(** X12.  When the committed-details response lists fewer than three
    entities, Instantiate still returns normally: the component, badge and
    gumball-resource variables become [undefined], the four elements show the
    word [undefined], and the next Buy submits a manifest that calls
    [buy_gumball] on [Address("undefined")]. *)
Theorem short_response_stores_undefined (w w' : Toolkit.World) (c : Config Toolkit.Session)
    (tx : TxResult) (st : TransactionStatus) (r : CommittedDetails) :
  Toolkit.sendTransaction w (Toolkit.manifest_of Toolkit.Instantiate c) 1 = Ok tx ->
  Toolkit.getStatus w (transactionIntentHash tx) = Fulfilled st ->
  Toolkit.getCommittedDetails w (transactionIntentHash tx) = Fulfilled r ->
  length (affected_global_entities r) <= 2 ->
  let run := Toolkit.instantiateComponent w c in
  outcome run = Returned tt /\
  Toolkit.componentAddress (session (final run)) = None /\
  Toolkit.admin_badge (session (final run)) = None /\
  Toolkit.owner_badge (session (final run)) = None /\
  Toolkit.gum_resourceAddress (session (final run)) = None /\
  Forall (fun id => texts (dom (final run)) !! id = Some "undefined")
    ["componentAddress"; "admin_badge"; "owner_badge"; "gum_resourceAddress"] /\
  submitted (trace (Toolkit.buyGumball w' (final run))) =
    [Toolkit.buy_manifest (Toolkit.accountAddress (session c))
       (Toolkit.xrdAddress (session c)) None].
Proof.
  intros Hw Hs Hd Hl run. subst run.
  pose proof (instantiate_success w c tx st r Hw Hs Hd) as Hf.
  cbv zeta in Hf. unfold instantiated in Hf.
  rewrite !(lookup_ge_None_2 (affected_global_entities r)) in Hf by lia.
  split.
  { destruct c as [s d]. simpl in Hw. run_handler. simpl.
    rewrite Hw. simpl. rewrite Hs. simpl. rewrite Hd. done. }
  rewrite (submits_once DappToolkit Toolkit.Buy). unfold fe_manifest. simpl.
  rewrite Hf. simpl. repeat split. repeat constructor; by simplify_map_eq.
Qed.

Lemma short_response_stores_undefined_witness :
  let run := Toolkit.instantiateComponent Edge.short_response Sample.toolkit_config in
  outcome run = Returned tt /\
  Toolkit.componentAddress (session (final run)) = None /\
  Manifest.instructions
    (Toolkit.buy_manifest (Some "addr1") (Some "xrd1")
       (Toolkit.componentAddress (session (final run)))) !! 2 =
    Some (Manifest.call_method "undefined" "buy_gumball" [Manifest.Bucket "xrd"]).
Proof.
  pose proof (short_response_stores_undefined Edge.short_response Sample.toolkit_world
                Sample.toolkit_config {| transactionIntentHash := "txid_1" |}
                {| status := "CommittedSuccess" |} Edge.short_receipt
                eq_refl eq_refl eq_refl) as H.
  simpl in H. specialize (H ltac:(lia)) as (Ho & Hc & _).
  split; [exact Ho | split; [exact Hc | reflexivity]].
Defined.
